(** * Saturn, protocol 2: the outgoing high-priority worker

    A shallow embedding of [OutgoingHighPriority] (OutHighPriority.c): the
    thread that turns the FPGA status snapshot and the FIFO monitor readings
    into the periodic "high priority from SDR" datagram.

    Integers are [Z] with the C wrap-around written out; the frame buffer is a
    [list Z] of bytes updated by offset; the thread is a step function over a
    machine state, one step per evaluation of a loop head that reads
    [SDRActive]; everything the thread obtains from outside (shared flags,
    hardware readings, the result of [sendmsg]) arrives in an [Input] record,
    and everything it does to the outside is an [Event] of the trace. *)

From stdpp Require Import base numbers list.

Local Open Scope Z_scope.

(** ** Fixed-width unsigned integers *)

Definition to_u8 (x : Z) : Z := x mod 2 ^ 8.
Definition to_u16 (x : Z) : Z := x mod 2 ^ 16.
Definition to_u32 (x : Z) : Z := x mod 2 ^ 32.

(** ** Byte buffers

    A one-byte store at [buf+off], and the 16 and 32 bit stores of a value
    that went through [htons] / [htonl]: whatever the host order, memory
    receives the most significant byte first.  A store outside the buffer is
    undefined behaviour in C; here it leaves the buffer as it is, and the
    theorems that read a stored field back assume the buffer is long enough. *)

Definition store8 (buf : list Z) (off : nat) (v : Z) : list Z :=
  <[off := to_u8 v]> buf.

Definition store16be (buf : list Z) (off : nat) (w : Z) : list Z :=
  store8 (store8 buf off (Z.shiftr w 8)) (S off) w.

Definition store32be (buf : list Z) (off : nat) (w : Z) : list Z :=
  store8 (store8 (store8 (store8 buf off (Z.shiftr w 24))
                         (S off) (Z.shiftr w 16))
                 (S (S off)) (Z.shiftr w 8))
         (S (S (S off))) w.

Definition load8 (buf : list Z) (off : nat) : Z := default 0 (buf !! off).

Definition load16be (buf : list Z) (off : nat) : Z :=
  load8 buf off * 2 ^ 8 + load8 buf (S off).

Definition load32be (buf : list Z) (off : nat) : Z :=
  load8 buf off * 2 ^ 24 + load8 buf (S off) * 2 ^ 16
  + load8 buf (S (S off)) * 2 ^ 8 + load8 buf (S (S (S off))).

(** ** Hardware collaborator (saturnregisters.h) *)

Inductive EDMAStreamSelect : Set :=
| eRXDDCDMA      (* selects RX *)
| eTXDUCDMA      (* selects TX *)
| eMicCodecDMA   (* selects mic samples *)
| eSpkCodecDMA.  (* selects speaker samples *)

(** One call of [ReadFIFOMonitorChannel]: the returned value and the four
    out-parameters, named as the caller's variables.  The caller passes
    [&Word], a [uint16_t], for the last one. *)
Record FIFOMonitor : Type := {
  Depth : Z;
  FIFOOverflow : bool;
  FIFOOverThreshold : bool;
  FIFOUnderflow : bool;
  Word : Z
}.

(** ** What the thread reads from outside during one loop iteration *)

Record Input : Type := {
  in_SDRActive : bool;                       (* the global run flag, as read at the loop head *)
  in_Cmdid_set : Z;                          (* bits the controlling process OR-ed into ThreadData->Cmdid *)
  in_MakeSocket : Z;                         (* the socket MakeSocket installs, when called *)
  in_PTTKeyInputs : Z;                       (* GetP2PTTKeyInputs() when the frame is built *)
  in_ADCOverflow : Z;                        (* GetADCOverflow() *)
  in_AnalogueIn : Z -> Z;                    (* GetAnalogueIn(select) *)
  in_UserIOBits : Z;                         (* GetUserIOBits() *)
  in_FIFO : EDMAStreamSelect -> FIFOMonitor; (* ReadFIFOMonitorChannel(channel, ...) *)
  in_FIFO_set : Z;                           (* bits other threads OR-ed into GlobalFIFOOverflows *)
  in_sendmsg : Z;                            (* the value sendmsg returns *)
  in_MOXAsserted : bool;                     (* the global MOXAsserted after the send *)
  in_wait_PTT : nat -> Z                     (* GetP2PTTKeyInputs() at the k-th pass of the wait loop *)
}.

(** ** What the thread does to the outside *)

Inductive Event : Type :=
| EReadStatusRegister
| Eusleep (us : Z)
| Eclose (fd : Z)
| EMakeSocket
| Esendmsg (fd : Z) (frame : list Z) (ret : Z)
| ERequestATUTune (TuneRequested : bool)
| EThreadError.                              (* ThreadError = true *)

(** ** Machine state: the thread's locals, its ThreadSocketData and the globals it writes *)

Inductive Loc : Set :=
| AtIdle       (* at the head of while(!(SDRActive)) *)
| AtRunning    (* at the head of while(SDRActive && !InitError) *)
| Returned.    (* after return NULL *)

Record Machine : Type := {
  pc : Loc;
  SequenceCounter : Z;
  UDPBuffer : list Z;
  InitError : bool;
  ATUTuneRequest : bool;
  Socketid : Z;
  Cmdid : Z;
  Active : bool;
  GlobalFIFOOverflows : Z;
  ThreadError : bool
}.

Definition set_pc (l : Loc) (m : Machine) : Machine :=
  {| pc := l; SequenceCounter := SequenceCounter m; UDPBuffer := UDPBuffer m;
     InitError := InitError m; ATUTuneRequest := ATUTuneRequest m;
     Socketid := Socketid m; Cmdid := Cmdid m; Active := Active m;
     GlobalFIFOOverflows := GlobalFIFOOverflows m; ThreadError := ThreadError m |}.

(** Writes of the other threads and of the controlling process, applied at
    the boundary of a loop iteration: they only ever set bits. *)
Definition env_writes (i : Input) (m : Machine) : Machine :=
  {| pc := pc m; SequenceCounter := SequenceCounter m; UDPBuffer := UDPBuffer m;
     InitError := InitError m; ATUTuneRequest := ATUTuneRequest m;
     Socketid := Socketid m;
     Cmdid := Z.lor (Cmdid m) (in_Cmdid_set i);
     Active := Active m;
     GlobalFIFOOverflows := to_u8 (Z.lor (GlobalFIFOOverflows m) (in_FIFO_set i));
     ThreadError := ThreadError m |}.

(** ** The FIFO monitor aggregation (lines 144-166) *)

Definition flag_bit (b : bool) (mask : Z) (acc : Z) : Z :=
  if b then Z.lor acc mask else acc.

(** [FIFOOverflows] after the four channels have been read. *)
Definition channel_flags (i : Input) : Z :=
  let FIFOOverflows := 0 in
  let FIFOOverflows := flag_bit (FIFOOverThreshold (in_FIFO i eRXDDCDMA)) 1 FIFOOverflows in
  let FIFOOverflows := flag_bit (FIFOOverThreshold (in_FIFO i eMicCodecDMA)) 2 FIFOOverflows in
  let FIFOOverflows := flag_bit (FIFOUnderflow (in_FIFO i eTXDUCDMA)) 4 FIFOOverflows in
  let FIFOOverflows := flag_bit (FIFOUnderflow (in_FIFO i eSpkCodecDMA)) 8 FIFOOverflows in
  FIFOOverflows.

(** The four sample counts, each the [uint16_t Word] that is handed to
    [htons]: the arithmetic is done in [int] and the assignment to [Word]
    keeps the low 16 bits. *)
Definition DDC_samples (i : Input) : Z := to_u16 (Word (in_FIFO i eRXDDCDMA)).
Definition mic_samples (i : Input) : Z := to_u16 (to_u16 (Word (in_FIFO i eMicCodecDMA)) * 4).
Definition DUC_samples (i : Input) : Z := to_u16 ((to_u16 (Word (in_FIFO i eTXDUCDMA)) * 4) / 3).
Definition spk_samples (i : Input) : Z := to_u16 (to_u16 (Word (in_FIFO i eSpkCodecDMA)) * 2).

(** The byte stored at offset 30: the channel bits OR the sticky mask. *)
Definition fifo_error_byte (i : Input) (Global : Z) : Z :=
  to_u8 (Z.lor (channel_flags i) Global).

(** ** The frame encoder (lines 116-169), store by store *)

Definition encode_frame (buf : list Z) (count : Z) (i : Input) (Global : Z) : list Z :=
  let buf := store32be buf 0 count in
  let PTTBits := to_u8 (in_PTTKeyInputs i) in
  let buf := store8 buf 4 PTTBits in
  let Byte := to_u8 (in_ADCOverflow i) in
  let buf := store8 buf 5 Byte in
  let buf := store16be buf 6 (to_u16 (in_AnalogueIn i 4)) in   (* exciter power *)
  let buf := store16be buf 14 (to_u16 (in_AnalogueIn i 0)) in  (* forward power *)
  let buf := store16be buf 22 (to_u16 (in_AnalogueIn i 1)) in  (* reverse power *)
  let buf := store16be buf 49 (to_u16 (in_AnalogueIn i 5)) in  (* supply voltage *)
  let buf := store16be buf 57 (to_u16 (in_AnalogueIn i 2)) in  (* AIN3 user_analog1 *)
  let buf := store16be buf 55 (to_u16 (in_AnalogueIn i 3)) in  (* AIN4 user_analog2 *)
  let Byte := to_u8 (in_UserIOBits i) in
  let buf := store8 buf 59 Byte in
  let buf := store16be buf 31 (DDC_samples i) in
  let buf := store16be buf 33 (mic_samples i) in
  let buf := store16be buf 35 (DUC_samples i) in
  let buf := store16be buf 37 (spk_samples i) in
  let buf := store8 buf 30 (fifo_error_byte i Global) in
  buf.

(** ** The ATU relay (lines 178-180) *)

(** [Byte = ((Byte >> 2) & 1) ^ 1; ATUTuneRequest = (bool)Byte] *)
Definition atu_request (Byte : Z) : bool :=
  negb (Z.lxor (Z.land (Z.shiftr Byte 2) 1) 1 =? 0).

(** ** The inter-frame wait (lines 194-201) *)

(** [uint8_t SleepCount = (MOXAsserted)? 2: 400;] *)
Definition SleepCount_init (MOXAsserted : bool) : Z :=
  to_u8 (if MOXAsserted then 2 else 400).

(** [while (SleepCount-- > 0) { ReadStatusRegister(); if (... != PTTBits)
    break; usleep(500); }].  [SleepCount] is unsigned and is only ever
    decremented by the loop test, so the loop is a recursion on its value;
    [k] counts the passes made so far. *)
Fixpoint wait_loop (SleepCount : nat) (PTTBits : Z) (PTT : nat -> Z) (k : nat) : list Event :=
  match SleepCount with
  | O => []
  | S SleepCount' =>
      EReadStatusRegister ::
      (if to_u8 (PTT k) =? PTTBits
       then Eusleep 500 :: wait_loop SleepCount' PTTBits PTT (S k)
       else [])
  end.

Section Worker.

(** Constants of threaddata.h, which is not part of the sources at hand. *)
Variable VHIGHPRIOTIYFROMSDRSIZE : nat.
Variable VBITCHANGEPORT : Z.

(** ** One pass of the main loop body (lines 113-201) *)

Definition cycle (i : Input) (m : Machine) : Machine * list Event :=
  let count := SequenceCounter m in
  let PTTBits := to_u8 (in_PTTKeyInputs i) in
  let Byte := to_u8 (in_UserIOBits i) in
  let frame := encode_frame (UDPBuffer m) count i (GlobalFIFOOverflows m) in
  let Error := in_sendmsg i in
  let Request := atu_request Byte in
  let SleepCount := SleepCount_init (in_MOXAsserted i) in
  ({| pc := AtRunning;
      SequenceCounter := to_u32 (count + 1);
      UDPBuffer := frame;
      InitError := if Error =? -1 then true else InitError m;
      ATUTuneRequest := Request;
      Socketid := Socketid m;
      Cmdid := Cmdid m;
      Active := Active m;
      GlobalFIFOOverflows := 0;
      ThreadError := ThreadError m |},
   [EReadStatusRegister; Esendmsg (Socketid m) frame Error; ERequestATUTune Request]
   ++ wait_loop (Z.to_nat SleepCount) PTTBits (in_wait_PTT i) 0).

(** ** One pass of the idle poll (lines 78-84) *)

Definition idle_poll (i : Input) (m : Machine) : Machine * list Event :=
  if Z.land (Cmdid m) VBITCHANGEPORT =? 0
  then (m, [Eusleep 100])
  else ({| pc := pc m; SequenceCounter := SequenceCounter m; UDPBuffer := UDPBuffer m;
           InitError := InitError m; ATUTuneRequest := ATUTuneRequest m;
           Socketid := in_MakeSocket i;
           Cmdid := Z.land (Cmdid m) (Z.lnot VBITCHANGEPORT);
           Active := Active m;
           GlobalFIFOOverflows := GlobalFIFOOverflows m;
           ThreadError := ThreadError m |},
        [Eclose (Socketid m); EMakeSocket; Eusleep 100]).

(** ** Run initiated (lines 90-101) *)

Definition start_run (m : Machine) : Machine :=
  {| pc := AtRunning; SequenceCounter := 0;
     UDPBuffer := replicate VHIGHPRIOTIYFROMSDRSIZE 0;
     InitError := InitError m; ATUTuneRequest := ATUTuneRequest m;
     Socketid := Socketid m; Cmdid := Cmdid m; Active := Active m;
     GlobalFIFOOverflows := GlobalFIFOOverflows m; ThreadError := ThreadError m |}.

(** ** Tidy shutdown (lines 207-212) *)

Definition shutdown (m : Machine) : Machine * list Event :=
  ({| pc := Returned; SequenceCounter := SequenceCounter m; UDPBuffer := UDPBuffer m;
      InitError := InitError m; ATUTuneRequest := ATUTuneRequest m;
      Socketid := Socketid m; Cmdid := Cmdid m;
      Active := false;
      GlobalFIFOOverflows := GlobalFIFOOverflows m;
      ThreadError := if InitError m then true else ThreadError m |},
   (if InitError m then [EThreadError] else []) ++ [Eclose (Socketid m)]).

(** The head of the outer [while (!InitError)], reached when the main loop
    is left. *)
Definition leave_main_loop (m : Machine) : Machine * list Event :=
  if InitError m then shutdown m else (set_pc AtIdle m, []).

(** ** The thread, one loop-head evaluation at a time *)

Definition worker_step (i : Input) (m : Machine) : Machine * list Event :=
  match pc m with
  | AtIdle =>
      if negb (in_SDRActive i) then idle_poll i m else (start_run m, [])
  | AtRunning =>
      if in_SDRActive i && negb (InitError m) then cycle i m else leave_main_loop m
  | Returned => (m, [])
  end.

Definition step (i : Input) (m : Machine) : Machine * list Event :=
  worker_step i (env_writes i m).

Fixpoint run (ins : list Input) (m : Machine) : Machine * list Event :=
  match ins with
  | [] => (m, [])
  | i :: ins' =>
      let '(m1, t1) := step i m in
      let '(m2, t2) := run ins' m1 in
      (m2, t1 ++ t2)
  end.

(** Thread entry (lines 48-65): the buffer is an uninitialised array of the
    frame size, [ThreadData] comes from the spawning process. *)
Definition thread_entry (stack : list Z) (socket cmd : Z) (Global : Z) (Fault : bool) : Machine :=
  {| pc := AtIdle; SequenceCounter := 0; UDPBuffer := stack;
     InitError := false; ATUTuneRequest := false;
     Socketid := socket; Cmdid := cmd; Active := true;
     GlobalFIFOOverflows := Global; ThreadError := Fault |}.

End Worker.

(** ** Reading traces *)

Definition frame_of (e : Event) : option (list Z) :=
  match e with Esendmsg _ frame _ => Some frame | _ => None end.

(** The datagrams handed to [sendmsg], oldest first. *)
Definition sent_frames (tr : list Event) : list (list Z) := omap frame_of tr.

(** The sequence number a receiver reads in the first four bytes. *)
Definition sent_sequence_numbers (tr : list Event) : list Z :=
  (λ frame, load32be frame 0) <$> sent_frames tr.

Fixpoint count_events (p : Event → bool) (tr : list Event) : nat :=
  match tr with
  | [] => O
  | e :: tr' => ((if p e then 1 else 0) + count_events p tr')%nat
  end.

Definition is_sendmsg (e : Event) : bool :=
  match e with Esendmsg _ _ _ => true | _ => false end.
Definition is_failed_sendmsg (e : Event) : bool :=
  match e with Esendmsg _ _ ret => ret =? -1 | _ => false end.
Definition is_ThreadError (e : Event) : bool :=
  match e with EThreadError => true | _ => false end.
Definition is_close (e : Event) : bool :=
  match e with Eclose _ => true | _ => false end.
Definition is_MakeSocket (e : Event) : bool :=
  match e with EMakeSocket => true | _ => false end.
Definition is_RequestATUTune (e : Event) : bool :=
  match e with ERequestATUTune _ => true | _ => false end.
Definition is_usleep (e : Event) : bool :=
  match e with Eusleep _ => true | _ => false end.

(** [n] uneventful passes of the wait loop. *)
Fixpoint ticks (n : nat) : list Event :=
  match n with
  | O => []
  | S n' => EReadStatusRegister :: Eusleep 500 :: ticks n'
  end.

(** A cycle that is entered and whose datagram goes out. *)
Definition cycle_succeeds (i : Input) : bool :=
  in_SDRActive i && negb (in_sendmsg i =? -1).

(** The key inputs read at passes [0 .. j-1] of the wait loop all equal the
    byte captured for the frame. *)
Definition keys_unchanged (j : nat) (PTTBits : Z) (PTT : nat → Z) : bool :=
  forallb (λ k, to_u8 (PTT k) =? PTTBits) (seq 0 j).

(** The offsets the cycle stores to: sequence number, PTT and ADC bytes,
    exciter, forward and reverse power, FIFO error byte and the four sample
    counts, supply voltage, the two user analogue inputs, user I/O bits. *)
Definition documented_offsets : list nat :=
  [0; 1; 2; 3; 4; 5; 6; 7; 14; 15; 22; 23; 30; 31; 32; 33; 34; 35; 36; 37; 38;
   49; 50; 55; 56; 57; 58; 59]%nat.

Definition with_Cmdid (c : Z) (m : Machine) : Machine :=
  {| pc := pc m; SequenceCounter := SequenceCounter m; UDPBuffer := UDPBuffer m;
     InitError := InitError m; ATUTuneRequest := ATUTuneRequest m;
     Socketid := Socketid m; Cmdid := c; Active := Active m;
     GlobalFIFOOverflows := GlobalFIFOOverflows m; ThreadError := ThreadError m |}.

(** A frame of the fixed size whose bytes outside the stored fields are 0. *)
Definition layout_ok (size : nat) (frame : list Z) : Prop :=
  length frame = size ∧ ∀ j, j ∉ documented_offsets → load8 frame j = 0.

(** ** Concrete readings for examples *)

Definition fifo_reading (over_threshold underflow : bool) (w : Z) : FIFOMonitor :=
  {| Depth := 0; FIFOOverflow := false; FIFOOverThreshold := over_threshold;
     FIFOUnderflow := underflow; Word := w |}.

(** Every channel quiet, with the given words in the DDC, DUC, mic and
    speaker monitors. *)
Definition fifo_words (ddc duc mic spk : Z) (ch : EDMAStreamSelect) : FIFOMonitor :=
  match ch with
  | eRXDDCDMA => fifo_reading false false ddc
  | eTXDUCDMA => fifo_reading false false duc
  | eMicCodecDMA => fifo_reading false false mic
  | eSpkCodecDMA => fifo_reading false false spk
  end.

(** Receiving, nothing keyed, nothing pending: only the run flag, the result
    of [sendmsg], the key inputs during the wait and the FIFO monitors vary. *)
Definition reading (active : bool) (sent : Z) (wait_PTT : nat → Z)
    (fifo : EDMAStreamSelect → FIFOMonitor) : Input :=
  {| in_SDRActive := active; in_Cmdid_set := 0; in_MakeSocket := 7;
     in_PTTKeyInputs := 0; in_ADCOverflow := 0; in_AnalogueIn := λ _, 0;
     in_UserIOBits := 0; in_FIFO := fifo; in_FIFO_set := 0;
     in_sendmsg := sent; in_MOXAsserted := false; in_wait_PTT := wait_PTT |}.

Definition quiet : EDMAStreamSelect → FIFOMonitor := fifo_words 0 0 0 0.

Definition blank_frame : list Z := replicate 60 0.

(** A running thread in the middle of an episode, socket 5, nothing pending. *)
Definition running_machine (count : Z) : Machine :=
  {| pc := AtRunning; SequenceCounter := count; UDPBuffer := blank_frame;
     InitError := false; ATUTuneRequest := false; Socketid := 5; Cmdid := 0;
     Active := true; GlobalFIFOOverflows := 0; ThreadError := false |}.

Definition idle_machine (count : Z) : Machine := set_pc AtIdle (running_machine count).

(** A freshly spawned thread: garbage on the stack, socket 5. *)
Definition spawned : Machine := thread_entry (replicate 60 170) 5 0 0 false.

Definition go : Input := reading true 60 (λ _, 0) quiet.

(** A DUC monitor word of 9 and a speaker monitor word of 10. *)
Definition worked_depths : Input := reading true 60 (λ _, 0) (fifo_words 0 9 0 10).

(** A mic monitor word of 16384, everything else quiet. *)
Definition deep_mic : Input := reading true 60 (λ _, 0) (fifo_words 0 0 16384 0).
Definition stop : Input := reading false 60 (λ _, 0) quiet.
Definition failing : Input := reading true (-1) (λ _, 0) quiet.

(** The PTT input goes active at the fourth pass of the wait loop. *)
Definition late_key : Input :=
  reading true 60 (λ k, if (k <? 3)%nat then 0 else 1) quiet.

(** DDC over threshold and speaker underflow, while other threads have set
    bit 5 of the sticky mask. *)
Definition flagged : Input :=
  {| in_SDRActive := true; in_Cmdid_set := 0; in_MakeSocket := 7;
     in_PTTKeyInputs := 0; in_ADCOverflow := 0; in_AnalogueIn := λ _, 0;
     in_UserIOBits := 0;
     in_FIFO := λ ch, match ch with
                      | eRXDDCDMA => fifo_reading true false 0
                      | eSpkCodecDMA => fifo_reading false true 0
                      | _ => fifo_reading false false 0
                      end;
     in_FIFO_set := 32;
     in_sendmsg := 60; in_MOXAsserted := false; in_wait_PTT := λ _, 0 |}.

(** User input bit 2 high: no tune requested. *)
Definition no_tune : Input :=
  {| in_SDRActive := true; in_Cmdid_set := 0; in_MakeSocket := 7;
     in_PTTKeyInputs := 0; in_ADCOverflow := 0; in_AnalogueIn := λ _, 0;
     in_UserIOBits := 4; in_FIFO := quiet; in_FIFO_set := 0;
     in_sendmsg := 60; in_MOXAsserted := true; in_wait_PTT := λ _, 0 |}.

(** ** Further trace readers *)

Definition socket_of (e : Event) : option Z :=
  match e with Esendmsg fd _ _ => Some fd | _ => None end.

(** The descriptor each datagram was sent on, oldest first. *)
Definition sockets_used (tr : list Event) : list Z := omap socket_of tr.

(** An input read while the run flag is clear. *)
Definition stopped (i : Input) : bool := negb (in_SDRActive i).

(** The budget of the inter-frame wait, in passes of the wait loop. *)
Definition wait_budget (i : Input) : nat :=
  Z.to_nat (SleepCount_init (in_MOXAsserted i)).

(** What the life of the thread looks like from outside, given the trace so
    far: failed sends, writes of the fault indicator, and sockets closed
    against sockets made. *)
Definition lifecycle_inv (m : Machine) (tr : list Event) : Prop :=
  match pc m with
  | AtIdle =>
      InitError m = false ∧ Active m = true
      ∧ count_events is_failed_sendmsg tr = 0%nat
      ∧ count_events is_ThreadError tr = 0%nat
      ∧ count_events is_close tr = count_events is_MakeSocket tr
  | AtRunning =>
      Active m = true
      ∧ count_events is_failed_sendmsg tr = (if InitError m then 1 else 0)%nat
      ∧ count_events is_ThreadError tr = 0%nat
      ∧ count_events is_close tr = count_events is_MakeSocket tr
  | Returned =>
      ThreadError m = true ∧ Active m = false
      ∧ count_events is_failed_sendmsg tr = 1%nat
      ∧ count_events is_ThreadError tr = 1%nat
      ∧ count_events is_close tr = S (count_events is_MakeSocket tr)
  end.

(** Two threads agree on everything a frame is built from: where they are,
    the error flag, the sticky mask and, while running, the counter and the
    buffer. *)
Definition same_wire_state (m m' : Machine) : Prop :=
  pc m = pc m' ∧ InitError m = InitError m'
  ∧ GlobalFIFOOverflows m = GlobalFIFOOverflows m'
  ∧ (pc m = AtRunning →
     SequenceCounter m = SequenceCounter m' ∧ UDPBuffer m = UDPBuffer m').

(** Key down, both ADCs overflowed, analogue input [s] reading [1000 + s]. *)
Definition telemetry : Input :=
  {| in_SDRActive := true; in_Cmdid_set := 0; in_MakeSocket := 7;
     in_PTTKeyInputs := 1; in_ADCOverflow := 3; in_AnalogueIn := λ s, 1000 + s;
     in_UserIOBits := 5; in_FIFO := fifo_words 300 0 0 0; in_FIFO_set := 0;
     in_sendmsg := 60; in_MOXAsserted := true; in_wait_PTT := λ _, 1 |}.

(** An idle thread with bit 5 of the sticky mask set by another thread. *)
Definition idle_with_sticky : Machine :=
  {| pc := AtIdle; SequenceCounter := 12; UDPBuffer := blank_frame;
     InitError := false; ATUTuneRequest := false; Socketid := 5; Cmdid := 0;
     Active := true; GlobalFIFOOverflows := 32; ThreadError := false |}.

(** * Properties *)

(** ** Stores and loads *)

Lemma length_store8 buf off v : length (store8 buf off v) = length buf.
Proof. unfold store8. apply length_insert. Qed.

Lemma length_store16be buf off w : length (store16be buf off w) = length buf.
Proof. unfold store16be. by rewrite !length_store8. Qed.

Lemma length_store32be buf off w : length (store32be buf off w) = length buf.
Proof. unfold store32be. by rewrite !length_store8. Qed.

Lemma length_encode_frame buf c i G : length (encode_frame buf c i G) = length buf.
Proof.
  unfold encode_frame; cbv zeta.
  by repeat first [ rewrite length_store8 | rewrite length_store16be
                  | rewrite length_store32be ].
Qed.

Lemma load8_store8_ne buf off v j :
  off ≠ j → load8 (store8 buf off v) j = load8 buf j.
Proof. intros H. unfold load8, store8. by rewrite list_lookup_insert_ne. Qed.

Lemma load8_store8_eq buf off v :
  (off < length buf)%nat → load8 (store8 buf off v) off = to_u8 v.
Proof. intros H. unfold load8, store8. by rewrite list_lookup_insert_eq. Qed.

Lemma load8_store16be_ne buf off w j :
  off ≠ j → S off ≠ j → load8 (store16be buf off w) j = load8 buf j.
Proof. intros H1 H2. unfold store16be. by rewrite !load8_store8_ne. Qed.

Lemma load8_store32be_ne buf off w j :
  off ≠ j → S off ≠ j → S (S off) ≠ j → S (S (S off)) ≠ j →
  load8 (store32be buf off w) j = load8 buf j.
Proof. intros H1 H2 H3 H4. unfold store32be. by rewrite !load8_store8_ne. Qed.

Lemma to_u8_range x : 0 <= to_u8 x < 256.
Proof. unfold to_u8. apply Z.mod_pos_bound. lia. Qed.

Lemma to_u16_range x : 0 <= to_u16 x < 65536.
Proof. unfold to_u16. apply Z.mod_pos_bound. lia. Qed.

Lemma to_u8_small x : 0 <= x < 256 → to_u8 x = x.
Proof. intros H. unfold to_u8. apply Z.mod_small. lia. Qed.

Lemma to_u16_small x : 0 <= x < 65536 → to_u16 x = x.
Proof. intros H. unfold to_u16. apply Z.mod_small. lia. Qed.

Lemma load16be_store16be buf off w :
  (S off < length buf)%nat → 0 <= w < 65536 →
  load16be (store16be buf off w) off = w.
Proof.
  intros Hlen Hw. unfold load16be, store16be.
  rewrite load8_store8_eq by (rewrite length_store8; lia).
  rewrite load8_store8_ne by lia.
  rewrite load8_store8_eq by lia.
  unfold to_u8. rewrite Z.shiftr_div_pow2 by lia.
  change (2 ^ 8) with 256.
  Z.div_mod_to_equations. lia.
Qed.

Lemma be32_join w :
  to_u8 (Z.shiftr w 24) * 2 ^ 24 + to_u8 (Z.shiftr w 16) * 2 ^ 16
  + to_u8 (Z.shiftr w 8) * 2 ^ 8 + to_u8 w = to_u32 w.
Proof.
  unfold to_u8, to_u32. rewrite !Z.shiftr_div_pow2 by lia.
  change (2 ^ 8) with 256. change (2 ^ 16) with 65536.
  change (2 ^ 24) with 16777216. change (2 ^ 32) with 4294967296.
  Z.div_mod_to_equations. lia.
Qed.

Lemma to_u8_idemp x : to_u8 (to_u8 x) = to_u8 x.
Proof. apply to_u8_small, to_u8_range. Qed.

Lemma be16_join w : 0 <= w < 65536 → to_u8 (Z.shiftr w 8) * 2 ^ 8 + to_u8 w = w.
Proof.
  intros Hw. unfold to_u8. rewrite Z.shiftr_div_pow2 by lia.
  change (2 ^ 8) with 256. Z.div_mod_to_equations. lia.
Qed.

(** Peels the stores of [encode_frame] off a load, one offset comparison at
    a time. *)
Ltac frame_loads :=
  unfold encode_frame, load32be, load16be, store32be, store16be; cbv zeta;
  repeat first [ rewrite load8_store8_eq by (rewrite ?length_store8; lia)
               | rewrite load8_store8_ne by lia ].

(** ** The fields of an encoded frame *)

Section Fields.

Variables (buf : list Z) (c : Z) (i : Input) (G : Z).
Hypothesis Hlen : (60 <= length buf)%nat.

Lemma encode_frame_sequence : load32be (encode_frame buf c i G) 0 = to_u32 c.
Proof. frame_loads. apply be32_join. Qed.

Lemma encode_frame_PTTBits : load8 (encode_frame buf c i G) 4 = to_u8 (in_PTTKeyInputs i).
Proof. frame_loads. apply to_u8_idemp. Qed.

Lemma encode_frame_UserIOBits : load8 (encode_frame buf c i G) 59 = to_u8 (in_UserIOBits i).
Proof. frame_loads. apply to_u8_idemp. Qed.

Lemma encode_frame_fifo_error_byte :
  load8 (encode_frame buf c i G) 30 = fifo_error_byte i G.
Proof. frame_loads. apply to_u8_idemp. Qed.

Lemma encode_frame_DDC_samples : load16be (encode_frame buf c i G) 31 = DDC_samples i.
Proof. frame_loads. apply be16_join, to_u16_range. Qed.

Lemma encode_frame_mic_samples : load16be (encode_frame buf c i G) 33 = mic_samples i.
Proof. frame_loads. apply be16_join, to_u16_range. Qed.

Lemma encode_frame_DUC_samples : load16be (encode_frame buf c i G) 35 = DUC_samples i.
Proof. frame_loads. apply be16_join, to_u16_range. Qed.

Lemma encode_frame_spk_samples : load16be (encode_frame buf c i G) 37 = spk_samples i.
Proof. frame_loads. apply be16_join, to_u16_range. Qed.

End Fields.

(** ** The sample counts *)

(** C4, the claim as stated fails: a mic monitor word of 16384 is reported
    as 0, not as 16384 × 4, because the product is assigned back to the
    16-bit [Word] before it is stored. *)
Lemma mic_count_wraps :
  Word (in_FIFO deep_mic eMicCodecDMA) = 16384
  ∧ mic_samples deep_mic = 0
  ∧ load16be (encode_frame blank_frame 0 deep_mic 0) 33 = 0
  ∧ mic_samples deep_mic ≠ Word (in_FIFO deep_mic eMicCodecDMA) * 4.
Proof. repeat split; try reflexivity. discriminate. Qed.

(** C4, amended: the counts stored at offsets 33, 35 and 37 are the low 16
    bits of depth × 4 (mic), of (depth × 4) ÷ 3 truncated (DUC) and of
    depth × 2 (speaker), where depth is the 16-bit word of the monitor
    reading; they are the plain products whenever those fit in 16 bits. *)
Theorem sample_counts_mod_2_16 (buf : list Z) (c : Z) (i : Input) (G : Z) :
  (60 <= length buf)%nat →
  let frame := encode_frame buf c i G in
  let mic := to_u16 (Word (in_FIFO i eMicCodecDMA)) in
  let duc := to_u16 (Word (in_FIFO i eTXDUCDMA)) in
  let spk := to_u16 (Word (in_FIFO i eSpkCodecDMA)) in
  load16be frame 33 = (mic * 4) mod 2 ^ 16
  ∧ load16be frame 35 = ((duc * 4) / 3) mod 2 ^ 16
  ∧ load16be frame 37 = (spk * 2) mod 2 ^ 16
  ∧ (mic < 16384 → load16be frame 33 = mic * 4)
  ∧ (duc < 49152 → load16be frame 35 = (duc * 4) / 3)
  ∧ (spk < 32768 → load16be frame 37 = spk * 2).
Proof.
  intros Hlen frame mic duc spk. subst frame.
  rewrite encode_frame_mic_samples, encode_frame_DUC_samples,
    encode_frame_spk_samples by done.
  unfold mic_samples, DUC_samples, spk_samples. fold mic duc spk.
  pose proof (to_u16_range (Word (in_FIFO i eMicCodecDMA))) as Hm.
  pose proof (to_u16_range (Word (in_FIFO i eTXDUCDMA))) as Hd.
  pose proof (to_u16_range (Word (in_FIFO i eSpkCodecDMA))) as Hs.
  fold mic in Hm. fold duc in Hd. fold spk in Hs.
  repeat split; try reflexivity; intros Hr; apply to_u16_small.
  - lia.
  - split; [apply Z.div_pos; lia |].
    apply Z.div_lt_upper_bound; lia.
  - lia.
Qed.

(** The two worked examples: a speaker word of 10 is reported as 20 and a
    DUC word of 9 as 12. *)
Lemma sample_counts_examples :
  (60 <= length blank_frame)%nat
  ∧ load16be (encode_frame blank_frame 0 worked_depths 0) 37 = 20
  ∧ load16be (encode_frame blank_frame 0 worked_depths 0) 35 = 12.
Proof.
  assert (60 <= length blank_frame)%nat as Hlen by (vm_compute; lia).
  split; [exact Hlen |].
  destruct (sample_counts_mod_2_16 blank_frame 0 worked_depths 0 Hlen)
    as (_ & _ & _ & _ & Hduc & Hspk).
  split; [apply Hspk | apply Hduc]; reflexivity.
Defined.

(** ** The wait budget *)

(** C2: the budget after a send is 2 ticks while MOX is asserted; otherwise
    the code assigns 400 to the 8-bit [SleepCount], which holds 144, and an
    undisturbed wait sleeps 144 times 500 microseconds: a whole idle cycle
    of the thread shows 144 sleeps, not 400. *)
Theorem idle_wait_budget_is_144_ticks :
  SleepCount_init true = 2
  ∧ SleepCount_init false = 144
  ∧ SleepCount_init false ≠ 400
  ∧ wait_loop (Z.to_nat (SleepCount_init false)) 0 (λ _, 0) 0 = ticks 144
  ∧ in_MOXAsserted go = false
  ∧ count_events is_usleep (snd (step 60 1 go (running_machine 0))) = 144%nat.
Proof. repeat split; try reflexivity. discriminate. Qed.

(** ** The wait loop *)

Lemma wait_loop_undisturbed n PTTBits PTT k :
  (∀ l, (l < n)%nat → to_u8 (PTT (k + l)%nat) = PTTBits) →
  wait_loop n PTTBits PTT k = ticks n.
Proof.
  revert k. induction n as [|n IH]; intros k Hsame; [done |].
  cbn [wait_loop ticks].
  pose proof (Hsame 0%nat ltac:(lia)) as H0. rewrite Nat.add_0_r in H0.
  rewrite H0, Z.eqb_refl. do 2 f_equal.
  apply IH. intros l Hl.
  replace (S k + l)%nat with (k + S l)%nat by lia. apply Hsame. lia.
Qed.

Lemma wait_loop_break n PTTBits PTT k j :
  (j < n)%nat →
  (∀ l, (l < j)%nat → to_u8 (PTT (k + l)%nat) = PTTBits) →
  to_u8 (PTT (k + j)%nat) ≠ PTTBits →
  wait_loop n PTTBits PTT k = ticks j ++ [EReadStatusRegister].
Proof.
  revert k j. induction n as [|n IH]; intros k j Hj Hsame Hdiff; [lia |].
  cbn [wait_loop]. destruct j as [|j].
  - rewrite Nat.add_0_r in Hdiff.
    by apply Z.eqb_neq in Hdiff as ->.
  - pose proof (Hsame 0%nat ltac:(lia)) as H0. rewrite Nat.add_0_r in H0.
    rewrite H0, Z.eqb_refl. cbn [ticks app]. do 2 f_equal.
    apply (IH (S k) j); [lia | |].
    + intros l Hl.
      replace (S k + l)%nat with (k + S l)%nat by lia. apply Hsame. lia.
    + by replace (S k + j)%nat with (k + S j)%nat by lia.
Qed.

Lemma keys_unchanged_spec j PTTBits PTT :
  keys_unchanged j PTTBits PTT = true →
  ∀ l, (l < j)%nat → to_u8 (PTT (0 + l)%nat) = PTTBits.
Proof.
  unfold keys_unchanged. rewrite List.forallb_forall. intros H l Hl.
  apply Z.eqb_eq, H, List.in_seq. lia.
Qed.

Lemma count_events_app p t1 t2 :
  count_events p (t1 ++ t2) = (count_events p t1 + count_events p t2)%nat.
Proof. induction t1 as [|e t1 IH]; cbn; [done | rewrite IH; lia]. Qed.

Lemma count_events_wait_loop p n PTTBits PTT k :
  p EReadStatusRegister = false → p (Eusleep 500) = false →
  count_events p (wait_loop n PTTBits PTT k) = 0%nat.
Proof.
  intros Hr Hu. revert k. induction n as [|n IH]; intros k; [done |].
  cbn [wait_loop count_events]. rewrite Hr.
  destruct (to_u8 (PTT k) =? PTTBits); [| done].
  cbn [count_events]. by rewrite Hu, IH.
Qed.

(** ** Bits *)

Lemma to_u8_land x : to_u8 x = Z.land x (Z.ones 8).
Proof. unfold to_u8. by rewrite Z.land_ones by lia. Qed.

Lemma to_u8_lor a b : to_u8 (Z.lor a b) = Z.lor (to_u8 a) (to_u8 b).
Proof. rewrite !to_u8_land. apply Z.land_lor_distr_l. Qed.

Lemma channel_flags_policy i :
  Z.testbit (channel_flags i) 0 = FIFOOverThreshold (in_FIFO i eRXDDCDMA)
  ∧ Z.testbit (channel_flags i) 1 = FIFOOverThreshold (in_FIFO i eMicCodecDMA)
  ∧ Z.testbit (channel_flags i) 2 = FIFOUnderflow (in_FIFO i eTXDUCDMA)
  ∧ Z.testbit (channel_flags i) 3 = FIFOUnderflow (in_FIFO i eSpkCodecDMA)
  ∧ 0 <= channel_flags i < 16.
Proof.
  unfold channel_flags, flag_bit; cbv zeta.
  destruct (FIFOOverThreshold (in_FIFO i eRXDDCDMA)),
    (FIFOOverThreshold (in_FIFO i eMicCodecDMA)),
    (FIFOUnderflow (in_FIFO i eTXDUCDMA)),
    (FIFOUnderflow (in_FIFO i eSpkCodecDMA));
    repeat split; first [ reflexivity | vm_compute; discriminate ].
Qed.

Lemma fifo_error_byte_lor i G :
  fifo_error_byte i G = Z.lor (channel_flags i) (to_u8 G).
Proof.
  unfold fifo_error_byte. rewrite to_u8_lor. f_equal.
  apply to_u8_small. pose proof (channel_flags_policy i). lia.
Qed.

Lemma atu_request_bit_2 Byte : atu_request Byte = negb (Z.testbit Byte 2).
Proof.
  unfold atu_request.
  replace (Z.land (Z.shiftr Byte 2) 1) with (Z.b2z (Z.testbit Byte 2)).
  - by destruct (Z.testbit Byte 2).
  - rewrite Z.testbit_spec' by lia.
    change (Z.land (Z.shiftr Byte 2) 1) with (Z.land (Z.shiftr Byte 2) (Z.ones 1)).
    rewrite Z.land_ones, Z.shiftr_div_pow2 by lia. reflexivity.
Qed.

Section WorkerProperties.

Variable VHIGHPRIOTIYFROMSDRSIZE : nat.
Variable VBITCHANGEPORT : Z.

Local Abbreviation step := (step VHIGHPRIOTIYFROMSDRSIZE VBITCHANGEPORT).
Local Abbreviation run := (run VHIGHPRIOTIYFROMSDRSIZE VBITCHANGEPORT).

Lemma step_cycle i m :
  pc m = AtRunning → InitError m = false → in_SDRActive i = true →
  step i m = cycle i (env_writes i m).
Proof.
  intros Hpc Herr Hact. unfold step, worker_step. cbn [env_writes pc InitError].
  by rewrite Hpc, Herr, Hact.
Qed.

Lemma run_cons i ins m :
  run (i :: ins) m =
  (fst (run ins (fst (step i m))), snd (step i m) ++ snd (run ins (fst (step i m)))).
Proof.
  cbn [run]. destruct (step i m) as [m1 t1]. cbn [fst snd].
  by destruct (run ins m1) as [m2 t2].
Qed.

Lemma run_two i1 i2 m :
  snd (run [i1; i2] m) = snd (step i1 m) ++ snd (step i2 (fst (step i1 m))).
Proof. rewrite !run_cons. cbn [run fst snd]. by rewrite app_nil_r. Qed.

Lemma cycle_succeeds_spec i :
  cycle_succeeds i = true → in_SDRActive i = true ∧ (in_sendmsg i =? -1) = false.
Proof.
  unfold cycle_succeeds. intros [H1 H2]%andb_prop.
  split; [done |]. by apply negb_true_iff.
Qed.

(** C3: during the wait the key inputs are read again at every pass and
    compared with the byte captured for the frame (offset 4); at the first
    pass [j] where they differ the loop is left after [j] sleeps instead of
    the whole budget, and the next frame is built at once. *)
Theorem key_change_aborts_wait (m : Machine) (i1 i2 : Input) (j : nat) :
  (60 <= length (UDPBuffer m))%nat →
  pc m = AtRunning → InitError m = false →
  cycle_succeeds i1 = true → in_SDRActive i2 = true →
  (j < Z.to_nat (SleepCount_init (in_MOXAsserted i1)))%nat →
  keys_unchanged j (to_u8 (in_PTTKeyInputs i1)) (in_wait_PTT i1) = true →
  (to_u8 (in_wait_PTT i1 j) =? to_u8 (in_PTTKeyInputs i1)) = false →
  let m1 := fst (step i1 m) in
  let m2 := fst (step i2 m1) in
  load8 (UDPBuffer m1) 4 = to_u8 (in_PTTKeyInputs i1)
  ∧ snd (run [i1; i2] m) =
      [EReadStatusRegister;
       Esendmsg (Socketid m) (UDPBuffer m1) (in_sendmsg i1);
       ERequestATUTune (ATUTuneRequest m1)]
      ++ ticks j ++ [EReadStatusRegister]
      ++ [EReadStatusRegister;
          Esendmsg (Socketid m) (UDPBuffer m2) (in_sendmsg i2);
          ERequestATUTune (ATUTuneRequest m2)]
      ++ wait_loop (Z.to_nat (SleepCount_init (in_MOXAsserted i2)))
           (to_u8 (in_PTTKeyInputs i2)) (in_wait_PTT i2) 0.
Proof.
  intros Hlen Hpc Herr [Hact1 Hsent1]%cycle_succeeds_spec Hact2 Hj Hsame Hdiff m1 m2.
  subst m2 m1. rewrite !run_cons. cbn [run snd].
  rewrite (step_cycle i1 m) by done.
  rewrite (step_cycle i2) by (cbn; by rewrite ?Hsent1).
  cbn [cycle fst snd UDPBuffer Socketid ATUTuneRequest env_writes].
  split; [by apply encode_frame_PTTBits |].
  rewrite (wait_loop_break _ _ _ 0 j Hj).
  - rewrite app_nil_r. by rewrite <- !app_assoc.
  - by apply keys_unchanged_spec.
  - by apply Z.eqb_neq.
Qed.

(** ** Sequence numbers *)

Lemma sent_frames_app t1 t2 : sent_frames (t1 ++ t2) = sent_frames t1 ++ sent_frames t2.
Proof. unfold sent_frames. apply omap_app. Qed.

Lemma sent_frames_wait_loop n PTTBits PTT k : sent_frames (wait_loop n PTTBits PTT k) = [].
Proof.
  revert k. induction n as [|n IH]; intros k; [done |].
  cbn [wait_loop]. destruct (to_u8 (PTT k) =? PTTBits); [| done].
  exact (IH (S k)).
Qed.

Lemma sent_frames_cycle i m :
  sent_frames (snd (cycle i m)) = [UDPBuffer (fst (cycle i m))].
Proof.
  cbn [cycle fst snd UDPBuffer]. rewrite sent_frames_app, sent_frames_wait_loop.
  reflexivity.
Qed.

Lemma to_u32_succ c k : to_u32 (to_u32 (c + 1) + Z.of_nat k) = to_u32 (c + Z.of_nat (S k)).
Proof.
  unfold to_u32. rewrite Zplus_mod_idemp_l. f_equal. lia.
Qed.

(** A stretch of successful cycles anywhere in an episode numbers its frames
    [c], [c+1], ... modulo 2^32 and leaves the thread running. *)
Lemma running_segment ins : ∀ m,
  (60 <= length (UDPBuffer m))%nat →
  pc m = AtRunning → InitError m = false →
  forallb cycle_succeeds ins = true →
  sent_sequence_numbers (snd (run ins m))
    = (λ k, to_u32 (SequenceCounter m + Z.of_nat k)) <$> seq 0 (length ins)
  ∧ pc (fst (run ins m)) = AtRunning
  ∧ InitError (fst (run ins m)) = false
  ∧ length (UDPBuffer (fst (run ins m))) = length (UDPBuffer m)
  ∧ Socketid (fst (run ins m)) = Socketid m.
Proof.
  induction ins as [|i ins IH]; intros m Hlen Hpc Herr Hok; [done |].
  cbn [forallb] in Hok. apply andb_prop in Hok as [Hi Hins].
  apply cycle_succeeds_spec in Hi as [Hact Hsent].
  rewrite run_cons, (step_cycle i m) by done. cbn [fst snd].
  set (m1 := fst (cycle i (env_writes i m))).
  assert (length (UDPBuffer m1) = length (UDPBuffer m)) as Hlen1
    by (subst m1; cbn; apply length_encode_frame).
  destruct (IH m1) as (Hseq & Hpc' & Herr' & Hlen' & Hsock'); try done.
  { lia. }
  { subst m1; cbn. by rewrite Hsent. }
  repeat split; try done; [| congruence].
  unfold sent_sequence_numbers in *.
  rewrite sent_frames_app, fmap_app, Hseq, sent_frames_cycle. fold m1.
  cbn [length seq fmap list_fmap app].
  f_equal.
  - subst m1. cbn [cycle fst UDPBuffer env_writes SequenceCounter].
    rewrite encode_frame_sequence by done. by rewrite Z.add_0_r.
  - rewrite <- seq_shift, <- list_fmap_compose.
    apply list_fmap_ext. intros _ k _. cbn.
    subst m1. cbn [cycle fst SequenceCounter env_writes]. apply to_u32_succ.
Qed.

(** C1: after a start transition the counter is 0 whatever it was, and the
    frames of the episode carry 0, 1, 2, ... modulo 2^32 in their first four
    bytes, each one more (modulo 2^32) than the one before it. *)
Theorem sequence_numbers_count_up (m : Machine) (i0 : Input) (ins : list Input) :
  (60 <= VHIGHPRIOTIYFROMSDRSIZE)%nat →
  pc m = AtIdle → InitError m = false → in_SDRActive i0 = true →
  forallb cycle_succeeds ins = true →
  let numbers := sent_sequence_numbers (snd (run (i0 :: ins) m)) in
  SequenceCounter (fst (step i0 m)) = 0
  ∧ numbers = (λ k, to_u32 (Z.of_nat k)) <$> seq 0 (length ins)
  ∧ (∀ k x, numbers !! k = Some x → (S k < length ins)%nat →
       numbers !! S k = Some (to_u32 (x + 1))).
Proof.
  intros Hsize Hpc Herr Hact Hok numbers.
  assert (step i0 m = (start_run VHIGHPRIOTIYFROMSDRSIZE (env_writes i0 m), [])) as Hstart.
  { unfold step, worker_step. cbn [env_writes pc]. by rewrite Hpc, Hact. }
  assert (numbers = (λ k, to_u32 (Z.of_nat k)) <$> seq 0 (length ins)) as Hnum.
  { subst numbers. rewrite run_cons, Hstart. cbn [fst snd app].
    destruct (running_segment ins (start_run VHIGHPRIOTIYFROMSDRSIZE (env_writes i0 m)))
      as (Hseq & _); try done.
    cbn [start_run UDPBuffer]. by rewrite length_replicate. }
  split; [by rewrite Hstart |]. split; [done |].
  intros k x Hk HSk. rewrite Hnum in Hk |- *.
  rewrite list_lookup_fmap, lookup_seq_lt in Hk by lia.
  rewrite list_lookup_fmap, lookup_seq_lt by lia.
  cbn in Hk |- *. injection Hk as <-. f_equal.
  unfold to_u32. rewrite Zplus_mod_idemp_l. f_equal. lia.
Qed.

(** ** The FIFO error byte *)

(** C5: the byte at offset 30 is the OR of the four channel bits (DDC and
    mic on over-threshold, DUC and speaker on underflow) with the sticky
    mask; the sticky mask is 0 after the cycle, so with no writer in between
    the next frame's byte holds that cycle's channel bits only. *)
Theorem fifo_error_byte_policy (m : Machine) (i1 i2 : Input) :
  (60 <= length (UDPBuffer m))%nat →
  pc m = AtRunning → InitError m = false →
  cycle_succeeds i1 = true → in_SDRActive i2 = true → in_FIFO_set i2 = 0 →
  let sticky := to_u8 (Z.lor (GlobalFIFOOverflows m) (in_FIFO_set i1)) in
  let m1 := fst (step i1 m) in
  let m2 := fst (step i2 m1) in
  sent_frames (snd (run [i1; i2] m)) = [UDPBuffer m1; UDPBuffer m2]
  ∧ Z.testbit (channel_flags i1) 0 = FIFOOverThreshold (in_FIFO i1 eRXDDCDMA)
  ∧ Z.testbit (channel_flags i1) 1 = FIFOOverThreshold (in_FIFO i1 eMicCodecDMA)
  ∧ Z.testbit (channel_flags i1) 2 = FIFOUnderflow (in_FIFO i1 eTXDUCDMA)
  ∧ Z.testbit (channel_flags i1) 3 = FIFOUnderflow (in_FIFO i1 eSpkCodecDMA)
  ∧ 0 <= channel_flags i1 < 16
  ∧ load8 (UDPBuffer m1) 30 = Z.lor (channel_flags i1) sticky
  ∧ GlobalFIFOOverflows m1 = 0
  ∧ load8 (UDPBuffer m2) 30 = channel_flags i2.
Proof.
  intros Hlen Hpc Herr [Hact1 Hsent1]%cycle_succeeds_spec Hact2 Hquiet sticky m1 m2.
  assert (step i1 m = cycle i1 (env_writes i1 m)) as Hs1 by by apply step_cycle.
  assert (step i2 m1 = cycle i2 (env_writes i2 m1)) as Hs2.
  { apply step_cycle; [| | done]; subst m1; rewrite Hs1; cbn; [done |].
    by rewrite Hsent1. }
  assert (GlobalFIFOOverflows m1 = 0) as HG1 by (subst m1; by rewrite Hs1).
  assert (length (UDPBuffer m1) = length (UDPBuffer m)) as Hlen1.
  { subst m1; rewrite Hs1. cbn. apply length_encode_frame. }
  split.
  { rewrite run_two, sent_frames_app. fold m1. subst m2.
    rewrite Hs2, sent_frames_cycle. subst m1.
    by rewrite Hs1, sent_frames_cycle. }
  destruct (channel_flags_policy i1) as (H0 & H1 & H2 & H3 & Hr).
  do 5 (split; [done |]).
  split; [| split; [done |]].
  - subst m1; rewrite Hs1. cbn [cycle fst UDPBuffer env_writes GlobalFIFOOverflows].
    rewrite encode_frame_fifo_error_byte, fifo_error_byte_lor by done.
    by rewrite to_u8_idemp.
  - subst m2. rewrite Hs2. cbn [cycle fst UDPBuffer env_writes GlobalFIFOOverflows].
    rewrite encode_frame_fifo_error_byte, fifo_error_byte_lor by lia.
    rewrite HG1, Hquiet. cbn. apply Z.lor_0_r.
Qed.

(** ** The ATU relay *)

(** C9: each cycle forwards exactly one tune request, after the send; it is
    the inversion of bit 2 of the user I/O byte stored at offset 59 of the
    frame of that cycle, and does not depend on anything kept from earlier
    cycles. *)
Theorem atu_request_is_inverted_bit_2 (m : Machine) (i : Input) :
  (60 <= length (UDPBuffer m))%nat →
  pc m = AtRunning → InitError m = false → in_SDRActive i = true →
  let m1 := fst (step i m) in
  let frame := UDPBuffer m1 in
  let request := negb (Z.testbit (load8 frame 59) 2) in
  load8 frame 59 = to_u8 (in_UserIOBits i)
  ∧ snd (step i m) =
      [EReadStatusRegister; Esendmsg (Socketid m) frame (in_sendmsg i);
       ERequestATUTune request]
      ++ wait_loop (Z.to_nat (SleepCount_init (in_MOXAsserted i)))
           (to_u8 (in_PTTKeyInputs i)) (in_wait_PTT i) 0
  ∧ count_events is_RequestATUTune (snd (step i m)) = 1%nat
  ∧ ATUTuneRequest m1 = request.
Proof.
  intros Hlen Hpc Herr Hact m1 frame request.
  assert (step i m = cycle i (env_writes i m)) as Hs by by apply step_cycle.
  assert (load8 frame 59 = to_u8 (in_UserIOBits i)) as Hbyte.
  { subst frame m1. rewrite Hs. cbn [cycle fst UDPBuffer].
    by apply encode_frame_UserIOBits. }
  assert (atu_request (to_u8 (in_UserIOBits i)) = request) as Hreq.
  { subst request. rewrite Hbyte. apply atu_request_bit_2. }
  split; [done |]. subst frame m1. rewrite Hs in *.
  cbn [cycle fst snd UDPBuffer ATUTuneRequest env_writes Socketid] in *.
  rewrite Hreq. repeat split.
  rewrite count_events_app, count_events_wait_loop by done. reflexivity.
Qed.

(** ** Send failure *)

Lemma run_app ins1 ins2 m :
  run (ins1 ++ ins2) m =
  (fst (run ins2 (fst (run ins1 m))),
   snd (run ins1 m) ++ snd (run ins2 (fst (run ins1 m)))).
Proof.
  revert m. induction ins1 as [|i ins1 IH]; intros m.
  - cbn [app run fst snd]. by destruct (run ins2 m).
  - rewrite <- app_comm_cons, !run_cons, IH. cbn [fst snd].
    by rewrite app_assoc.
Qed.

Lemma step_failed_cycle i m :
  pc m = AtRunning → InitError m = false →
  in_SDRActive i = true → in_sendmsg i = -1 →
  pc (fst (step i m)) = AtRunning ∧ InitError (fst (step i m)) = true
  ∧ Socketid (fst (step i m)) = Socketid m.
Proof.
  intros Hpc Herr Hact Hfail. rewrite step_cycle by done.
  cbn [cycle fst pc InitError Socketid env_writes]. by rewrite Hfail.
Qed.

Lemma step_shutdown i m :
  pc m = AtRunning → InitError m = true →
  step i m = shutdown (env_writes i m)
  ∧ snd (step i m) = [EThreadError; Eclose (Socketid m)]
  ∧ pc (fst (step i m)) = Returned
  ∧ ThreadError (fst (step i m)) = true
  ∧ Active (fst (step i m)) = false.
Proof.
  intros Hpc Herr.
  assert (step i m = shutdown (env_writes i m)) as ->.
  { unfold step, worker_step, leave_main_loop. cbn [env_writes pc InitError].
    by rewrite Hpc, Herr, andb_false_r. }
  unfold shutdown. cbn [env_writes InitError fst snd pc ThreadError Active Socketid].
  by rewrite Herr.
Qed.

Lemma run_Returned ins : ∀ m,
  pc m = Returned →
  snd (run ins m) = [] ∧ pc (fst (run ins m)) = Returned
  ∧ ThreadError (fst (run ins m)) = ThreadError m
  ∧ Active (fst (run ins m)) = Active m.
Proof.
  induction ins as [|i ins IH]; intros m Hpc; [done |].
  rewrite run_cons. cbn [fst snd].
  assert (step i m = (env_writes i m, [])) as ->.
  { unfold step, worker_step. cbn [env_writes pc]. by rewrite Hpc. }
  cbn [fst snd app]. by apply (IH (env_writes i m)).
Qed.

(** While [InitError] is clear the thread has neither raised the fault
    indicator nor seen a send fail, and it has not returned. *)
Lemma healthy_step i m :
  pc m ≠ Returned → InitError m = false → InitError (fst (step i m)) = false →
  count_events is_ThreadError (snd (step i m)) = 0%nat
  ∧ count_events is_failed_sendmsg (snd (step i m)) = 0%nat
  ∧ pc (fst (step i m)) ≠ Returned.
Proof.
  intros Hpc Herr. unfold step, worker_step, idle_poll, leave_main_loop.
  cbn [env_writes pc InitError Cmdid].
  destruct (pc m) eqn:Hloc; [| | done].
  - destruct (in_SDRActive i); cbn [negb]; [done |].
    destruct (Z.land _ _ =? 0); cbn [fst snd pc env_writes];
      rewrite ?Hloc; done.
  - rewrite Herr, andb_true_r. destruct (in_SDRActive i); [| done].
    cbn [cycle fst snd InitError pc]. intros Herr'.
    rewrite !count_events_app, !count_events_wait_loop by done.
    cbn [app count_events is_ThreadError is_failed_sendmsg].
    by destruct (in_sendmsg i =? -1).
Qed.

Lemma InitError_step i m :
  InitError m = true → InitError (fst (step i m)) = true.
Proof.
  intros Herr. unfold step, worker_step, idle_poll, leave_main_loop, shutdown.
  cbn [env_writes pc InitError Cmdid]. rewrite Herr, andb_false_r.
  destruct (pc m); [| done..].
  destruct (in_SDRActive i); cbn [negb]; [done |].
  destruct (Z.land _ _ =? 0); cbn [fst InitError env_writes]; done.
Qed.

Lemma InitError_run ins : ∀ m,
  InitError m = true → InitError (fst (run ins m)) = true.
Proof.
  induction ins as [|i ins IH]; intros m Herr; [done |].
  rewrite run_cons. cbn [fst]. by apply IH, InitError_step.
Qed.

Lemma healthy_run ins : ∀ m,
  pc m ≠ Returned → InitError m = false → InitError (fst (run ins m)) = false →
  count_events is_ThreadError (snd (run ins m)) = 0%nat
  ∧ count_events is_failed_sendmsg (snd (run ins m)) = 0%nat
  ∧ pc (fst (run ins m)) ≠ Returned.
Proof.
  induction ins as [|i ins IH]; intros m Hpc Herr Hend; [done |].
  rewrite run_cons in Hend |- *. cbn [fst snd] in Hend |- *.
  destruct (InitError (fst (step i m))) eqn:Herr1.
  { by rewrite InitError_run in Hend. }
  destruct (healthy_step i m) as (Hf & Hs & Hpc1); try done.
  destruct (IH (fst (step i m))) as (Hf' & Hs' & Hpc'); try done.
  rewrite !count_events_app, Hf, Hs, Hf', Hs'. done.
Qed.

(** C6: a failed send is not retried and ends the thread.  From thread
    entry, if the cycle fed by [i] has its [sendmsg] return -1, then whatever
    the inputs afterwards: nothing is sent after the failed datagram, the
    fault indicator is written exactly once in the whole trace, the socket is
    closed, [Active] is cleared and the thread has returned. *)
Theorem send_failure_is_fatal (stack : list Z) (socket cmd Global : Z) (Fault : bool)
    (before : list Input) (i i' : Input) (after : list Input) :
  pc (fst (run before (thread_entry stack socket cmd Global Fault))) = AtRunning →
  InitError (fst (run before (thread_entry stack socket cmd Global Fault))) = false →
  in_SDRActive i = true → in_sendmsg i = -1 →
  let entry := thread_entry stack socket cmd Global Fault in
  let m := fst (run before entry) in
  let m1 := fst (step i m) in
  let final := fst (run (before ++ i :: i' :: after) entry) in
  let trace := snd (run (before ++ i :: i' :: after) entry) in
  let rest :=
    ERequestATUTune (ATUTuneRequest m1)
    :: wait_loop (Z.to_nat (SleepCount_init (in_MOXAsserted i)))
         (to_u8 (in_PTTKeyInputs i)) (in_wait_PTT i) 0
    ++ [EThreadError; Eclose (Socketid m)] in
  trace = (snd (run before entry) ++ [EReadStatusRegister])
          ++ Esendmsg (Socketid m) (UDPBuffer m1) (-1) :: rest
  ∧ count_events is_sendmsg rest = 0%nat
  ∧ count_events is_failed_sendmsg (snd (run before entry)) = 0%nat
  ∧ count_events is_failed_sendmsg trace = 1%nat
  ∧ count_events is_ThreadError trace = 1%nat
  ∧ count_events is_close rest = 1%nat
  ∧ pc final = Returned ∧ ThreadError final = true ∧ Active final = false.
Proof.
  intros Hpc Herr Hact Hfail entry m m1 final trace rest.
  fold entry in Hpc, Herr. fold m in Hpc, Herr.
  destruct (step_failed_cycle i m) as (Hpc1 & Herr1 & Hsock1); try done.
  fold m1 in Hpc1, Herr1, Hsock1.
  destruct (step_shutdown i' m1) as (_ & Hev & Hpc2 & Hfault2 & Hact2); try done.
  destruct (run_Returned after (fst (step i' m1))) as (Hev3 & Hpc3 & Hfault3 & Hact3);
    [done |].
  destruct (healthy_run before entry) as (Hnofault & Hnofail & _); try done.
  assert (snd (step i m) =
            EReadStatusRegister :: Esendmsg (Socketid m) (UDPBuffer m1) (-1)
            :: ERequestATUTune (ATUTuneRequest m1)
            :: wait_loop (Z.to_nat (SleepCount_init (in_MOXAsserted i)))
                 (to_u8 (in_PTTKeyInputs i)) (in_wait_PTT i) 0) as Hcycle.
  { subst m1. rewrite step_cycle by done.
    cbn [cycle fst snd UDPBuffer ATUTuneRequest env_writes Socketid app].
    by rewrite Hfail. }
  assert (trace = (snd (run before entry) ++ [EReadStatusRegister])
                  ++ Esendmsg (Socketid m) (UDPBuffer m1) (-1) :: rest) as Htrace.
  { subst trace rest. rewrite run_app. fold m. cbn [snd].
    rewrite !run_cons. cbn [fst snd]. fold m1.
    rewrite Hev3, Hev, Hcycle, Hsock1, app_nil_r, <- app_assoc. reflexivity. }
  assert (count_events is_sendmsg rest = 0%nat) as Hnosend.
  { subst rest. cbn [count_events is_sendmsg].
    rewrite count_events_app, count_events_wait_loop by done. reflexivity. }
  assert (count_events is_failed_sendmsg rest = 0%nat) as Hnofail'.
  { subst rest. cbn [count_events is_failed_sendmsg].
    rewrite count_events_app, count_events_wait_loop by done. reflexivity. }
  assert (count_events is_ThreadError rest = 1%nat) as Honefault.
  { subst rest. cbn [count_events is_ThreadError].
    rewrite count_events_app, count_events_wait_loop by done. reflexivity. }
  assert (count_events is_close rest = 1%nat) as Honeclose.
  { subst rest. cbn [count_events is_close].
    rewrite count_events_app, count_events_wait_loop by done. reflexivity. }
  split; [done |]. split; [done |]. split; [done |].
  split; [| split; [| split; [done |]]].
  - rewrite Htrace, !count_events_app. cbn [count_events is_failed_sendmsg].
    rewrite Hnofail, Hnofail'. reflexivity.
  - rewrite Htrace, !count_events_app. cbn [count_events is_ThreadError].
    rewrite Hnofault, Honefault. reflexivity.
  - subst final. rewrite run_app. fold m. cbn [fst].
    rewrite !run_cons. cbn [fst]. fold m1.
    rewrite Hpc3, Hfault3, Hact3. done.
Qed.

(** C10: a cycle whose send fails completes like any other: the counter has
    moved on, the sticky mask went into the unsent frame and is cleared, the
    tune request is forwarded after the send, the wait loop runs (for its
    whole budget when the keys do not change) and only then does the
    shutdown path raise the fault indicator and close the socket. *)
Theorem failed_send_cycle_completes (m : Machine) (i1 i2 : Input) :
  (60 <= length (UDPBuffer m))%nat →
  pc m = AtRunning → InitError m = false →
  in_SDRActive i1 = true → in_sendmsg i1 = -1 →
  let sticky := to_u8 (Z.lor (GlobalFIFOOverflows m) (in_FIFO_set i1)) in
  let m1 := fst (step i1 m) in
  let budget := Z.to_nat (SleepCount_init (in_MOXAsserted i1)) in
  let PTTBits := to_u8 (in_PTTKeyInputs i1) in
  SequenceCounter m1 = to_u32 (SequenceCounter m + 1)
  ∧ load32be (UDPBuffer m1) 0 = to_u32 (SequenceCounter m)
  ∧ load8 (UDPBuffer m1) 30 = Z.lor (channel_flags i1) sticky
  ∧ GlobalFIFOOverflows m1 = 0
  ∧ snd (run [i1; i2] m) =
      [EReadStatusRegister;
       Esendmsg (Socketid m) (UDPBuffer m1) (-1);
       ERequestATUTune (negb (Z.testbit (load8 (UDPBuffer m1) 59) 2))]
      ++ wait_loop budget PTTBits (in_wait_PTT i1) 0
      ++ [EThreadError; Eclose (Socketid m)]
  ∧ (keys_unchanged budget PTTBits (in_wait_PTT i1) = true →
     wait_loop budget PTTBits (in_wait_PTT i1) 0 = ticks budget).
Proof.
  intros Hlen Hpc Herr Hact Hfail sticky m1 budget PTTBits.
  destruct (step_failed_cycle i1 m) as (Hpc1 & Herr1 & Hsock1); try done.
  fold m1 in Hpc1, Herr1, Hsock1.
  destruct (step_shutdown i2 m1) as (_ & Hev & _); try done.
  rewrite run_two. fold m1. rewrite Hev, Hsock1.
  subst m1. rewrite step_cycle by done.
  cbn [cycle fst snd SequenceCounter UDPBuffer GlobalFIFOOverflows env_writes Socketid].
  rewrite encode_frame_sequence, encode_frame_fifo_error_byte,
    encode_frame_UserIOBits, fifo_error_byte_lor, to_u8_idemp by done.
  rewrite atu_request_bit_2, Hfail, <- app_assoc.
  repeat split.
  intros Hsame. apply wait_loop_undisturbed. by apply keys_unchanged_spec.
Qed.

(** ** The change-port command *)

(** C7: an idle poll that finds the change-port bit set closes the socket,
    has [MakeSocket] install a new one and clears the bit; a step taken while
    running behaves the same whatever [Cmdid] holds, never calls
    [MakeSocket], and leaves a pending bit pending. *)
Theorem change_port_only_while_idle (m : Machine) (i : Input)
    (mr : Machine) (ir : Input) (c : Z) :
  pc m = AtIdle → in_SDRActive i = false →
  Z.land (Z.lor (Cmdid m) (in_Cmdid_set i)) VBITCHANGEPORT ≠ 0 →
  pc mr = AtRunning →
  snd (step i m) = [Eclose (Socketid m); EMakeSocket; Eusleep 100]
  ∧ Socketid (fst (step i m)) = in_MakeSocket i
  ∧ Z.land (Cmdid (fst (step i m))) VBITCHANGEPORT = 0
  ∧ pc (fst (step i m)) = AtIdle
  ∧ snd (step ir (with_Cmdid c mr)) = snd (step ir mr)
  ∧ fst (step ir (with_Cmdid c mr))
    = with_Cmdid (Z.lor c (in_Cmdid_set ir)) (fst (step ir mr))
  ∧ Cmdid (fst (step ir mr)) = Z.lor (Cmdid mr) (in_Cmdid_set ir)
  ∧ Socketid (fst (step ir mr)) = Socketid mr
  ∧ count_events is_MakeSocket (snd (step ir mr)) = 0%nat.
Proof.
  intros Hpc Hact Hbit Hpcr.
  assert (step i m = idle_poll VBITCHANGEPORT i (env_writes i m)) as ->.
  { unfold step, worker_step. cbn [env_writes pc]. by rewrite Hpc, Hact. }
  unfold idle_poll. cbn [env_writes Cmdid].
  apply Z.eqb_neq in Hbit. rewrite Hbit. cbn [fst snd Socketid Cmdid pc env_writes].
  do 2 (split; [done |]). split.
  { rewrite <- Z.land_assoc, (Z.land_comm (Z.lnot _)), Z.land_lnot_diag.
    apply Z.land_0_r. }
  split; [done |].
  unfold step, worker_step, leave_main_loop, shutdown, with_Cmdid.
  cbn [env_writes pc InitError Cmdid]. rewrite Hpcr.
  destruct (in_SDRActive ir && negb (InitError mr)).
  - cbn [cycle fst snd Cmdid Socketid env_writes]. repeat split.
    rewrite count_events_app, count_events_wait_loop by done. reflexivity.
  - cbn [env_writes InitError].
    destruct (InitError mr) eqn:Herr; unfold set_pc; cbn; rewrite ?Herr; done.
Qed.

(** ** The frame layout *)

Lemma load8_replicate_0 n j : load8 (replicate n 0) j = 0.
Proof.
  unfold load8. destruct (replicate n 0 !! j) as [x|] eqn:Hx; [| done].
  by apply lookup_replicate in Hx as [-> _].
Qed.

Lemma encode_frame_other buf c i G j :
  j ∉ documented_offsets → load8 (encode_frame buf c i G) j = load8 buf j.
Proof.
  unfold documented_offsets. intros H.
  repeat (apply not_elem_of_cons in H as [? H]).
  frame_loads. reflexivity.
Qed.

Lemma layout_ok_encode_frame size buf c i G :
  layout_ok size buf → layout_ok size (encode_frame buf c i G).
Proof.
  intros [Hlen Hzero]. split; [by rewrite length_encode_frame |].
  intros j Hj. rewrite encode_frame_other by done. by apply Hzero.
Qed.

Lemma layout_ok_step i m :
  (pc m = AtRunning → layout_ok VHIGHPRIOTIYFROMSDRSIZE (UDPBuffer m)) →
  (pc (fst (step i m)) = AtRunning →
   layout_ok VHIGHPRIOTIYFROMSDRSIZE (UDPBuffer (fst (step i m))))
  ∧ Forall (layout_ok VHIGHPRIOTIYFROMSDRSIZE) (sent_frames (snd (step i m))).
Proof.
  intros Hinv. unfold step, worker_step, idle_poll, leave_main_loop, shutdown.
  cbn [env_writes pc InitError Cmdid].
  destruct (pc m) eqn:Hpc.
  - destruct (in_SDRActive i); cbn [negb].
    + split; [| by constructor]. intros _. cbn [start_run fst UDPBuffer].
      split; [apply length_replicate | intros j _; apply load8_replicate_0].
    + destruct (Z.land _ _ =? 0); cbn [fst snd pc env_writes];
        rewrite ?Hpc; (split; [done | by constructor]).
  - destruct (in_SDRActive i && negb (InitError m)).
    + fold (fst (cycle i (env_writes i m))). rewrite sent_frames_cycle.
      cbn [cycle fst UDPBuffer env_writes].
      assert (layout_ok VHIGHPRIOTIYFROMSDRSIZE
                (encode_frame (UDPBuffer m) (SequenceCounter m) i
                   (to_u8 (Z.lor (GlobalFIFOOverflows m) (in_FIFO_set i)))))
        by by apply layout_ok_encode_frame, Hinv.
      split; [done | constructor; [done | constructor]].
    + destruct (InitError m); cbn [fst snd pc set_pc];
        (split; [done | by constructor]).
  - cbn [fst snd pc env_writes]. rewrite ?Hpc. split; [done | by constructor].
Qed.

Lemma layout_ok_run ins : ∀ m,
  (pc m = AtRunning → layout_ok VHIGHPRIOTIYFROMSDRSIZE (UDPBuffer m)) →
  Forall (layout_ok VHIGHPRIOTIYFROMSDRSIZE) (sent_frames (snd (run ins m))).
Proof.
  induction ins as [|i ins IH]; intros m Hinv; [by constructor |].
  rewrite run_cons. cbn [snd]. rewrite sent_frames_app.
  destruct (layout_ok_step i m Hinv) as [Hinv1 Hsent].
  apply Forall_app. split; [done | by apply IH].
Qed.

(** C8: every datagram the thread ever sends has the frame size and is zero
    at every offset the cycle does not store to; the start transition
    installs an all-zero buffer, and building a frame leaves the bytes at
    those offsets as they were. *)
Theorem frame_layout_is_fixed (stack : list Z) (socket cmd Global : Z) (Fault : bool)
    (ins : list Input) :
  Forall (layout_ok VHIGHPRIOTIYFROMSDRSIZE)
    (sent_frames (snd (run ins (thread_entry stack socket cmd Global Fault))))
  ∧ (∀ m, UDPBuffer (start_run VHIGHPRIOTIYFROMSDRSIZE m)
          = replicate VHIGHPRIOTIYFROMSDRSIZE 0)
  ∧ (∀ buf c i G j, j ∉ documented_offsets →
       load8 (encode_frame buf c i G) j = load8 buf j).
Proof.
  split; [| split].
  - by apply layout_ok_run.
  - done.
  - intros. by apply encode_frame_other.
Qed.

(** * Further properties of the worker *)

(** ** The wire layout *)

(** X1: every field of a built frame reads back as the value the cycle
    obtained for it, cut to the width of the field: no store of the cycle
    overwrites part of another field, also at the odd offsets 49, 55, 57. *)
Theorem frame_fields_read_back (buf : list Z) (c : Z) (i : Input) (G : Z) :
  (60 <= length buf)%nat →
  let frame := encode_frame buf c i G in
  length frame = length buf
  ∧ load32be frame 0 = to_u32 c
  ∧ load8 frame 4 = to_u8 (in_PTTKeyInputs i)
  ∧ load8 frame 5 = to_u8 (in_ADCOverflow i)
  ∧ load16be frame 6 = to_u16 (in_AnalogueIn i 4)
  ∧ load16be frame 14 = to_u16 (in_AnalogueIn i 0)
  ∧ load16be frame 22 = to_u16 (in_AnalogueIn i 1)
  ∧ load16be frame 49 = to_u16 (in_AnalogueIn i 5)
  ∧ load16be frame 57 = to_u16 (in_AnalogueIn i 2)
  ∧ load16be frame 55 = to_u16 (in_AnalogueIn i 3)
  ∧ load8 frame 59 = to_u8 (in_UserIOBits i)
  ∧ load8 frame 30 = Z.lor (channel_flags i) (to_u8 G)
  ∧ load16be frame 31 = to_u16 (Word (in_FIFO i eRXDDCDMA)).
Proof.
  intros Hlen frame. subst frame.
  split; [apply length_encode_frame |].
  split; [by apply encode_frame_sequence |].
  split; [by apply encode_frame_PTTBits |].
  split; [frame_loads; apply to_u8_idemp |].
  do 6 (split; [frame_loads; apply be16_join, to_u16_range |]).
  split; [by apply encode_frame_UserIOBits |].
  split; [rewrite encode_frame_fifo_error_byte by done; apply fifo_error_byte_lor |].
  by apply encode_frame_DDC_samples.
Qed.

Lemma load8_encode_frame_agree buf1 buf2 c i G j :
  (60 <= length buf1)%nat → (60 <= length buf2)%nat →
  (j ∉ documented_offsets → load8 buf1 j = load8 buf2 j) →
  load8 (encode_frame buf1 c i G) j = load8 (encode_frame buf2 c i G) j.
Proof.
  intros Hlen1 Hlen2 Hother.
  destruct (decide (j ∈ documented_offsets)) as [Hin | Hout].
  - unfold documented_offsets in Hin.
    repeat (apply elem_of_cons in Hin as [-> | Hin]);
      [frame_loads; reflexivity .. | by apply elem_of_nil in Hin].
  - rewrite !encode_frame_other by done. by apply Hother.
Qed.

Lemma load8_ext (l1 l2 : list Z) :
  length l1 = length l2 → (∀ j, load8 l1 j = load8 l2 j) → l1 = l2.
Proof.
  intros Hlen Hload. apply list_eq. intros j.
  specialize (Hload j). unfold load8 in Hload.
  destruct (l1 !! j) as [x1|] eqn:H1, (l2 !! j) as [x2|] eqn:H2; cbn in Hload.
  - by subst.
  - apply lookup_lt_Some in H1. apply lookup_ge_None in H2. lia.
  - apply lookup_ge_None in H1. apply lookup_lt_Some in H2. lia.
  - done.
Qed.

(** X2: the frame of a cycle depends on the buffer it is built in only
    through the bytes outside the stored fields: two buffers of the frame
    size that are zero there give the same datagram, so nothing of an
    earlier frame shows in a later one. *)
Theorem frame_has_no_stale_bytes (size : nat) (buf1 buf2 : list Z)
    (c : Z) (i : Input) (G : Z) :
  (60 <= size)%nat → layout_ok size buf1 → layout_ok size buf2 →
  encode_frame buf1 c i G = encode_frame buf2 c i G.
Proof.
  intros Hsize [Hlen1 Hzero1] [Hlen2 Hzero2].
  apply load8_ext; [by rewrite !length_encode_frame, Hlen1, Hlen2 |].
  intros j. apply load8_encode_frame_agree; [lia | lia |].
  intros Hj. by rewrite Hzero1, Hzero2.
Qed.

(** ** The idle poll *)

Lemma step_idle_poll i m :
  pc m = AtIdle → in_SDRActive i = false →
  step i m = idle_poll VBITCHANGEPORT i (env_writes i m).
Proof.
  intros Hpc Hact. unfold step, worker_step. cbn [env_writes pc].
  by rewrite Hpc, Hact.
Qed.

Lemma step_start i m :
  pc m = AtIdle → in_SDRActive i = true →
  step i m = (start_run VHIGHPRIOTIYFROMSDRSIZE (env_writes i m), []).
Proof.
  intros Hpc Hact. unfold step, worker_step. cbn [env_writes pc].
  by rewrite Hpc, Hact.
Qed.

Lemma step_stop i m :
  pc m = AtRunning → InitError m = false → in_SDRActive i = false →
  step i m = (set_pc AtIdle (env_writes i m), []).
Proof.
  intros Hpc Herr Hact. unfold step, worker_step, leave_main_loop.
  cbn [env_writes pc InitError]. by rewrite Hpc, Hact, Herr.
Qed.

(** X3: while the run flag reads clear an idle thread stays idle: it sends
    nothing, forwards no tune request, never writes the fault indicator,
    sleeps exactly once per poll and re-makes the socket each time it closes
    it; its counter, buffer and flags are left as they were. *)
Theorem idle_thread_is_silent (ins : list Input) : ∀ m : Machine,
  pc m = AtIdle → forallb stopped ins = true →
  pc (fst (run ins m)) = AtIdle
  ∧ count_events is_sendmsg (snd (run ins m)) = 0%nat
  ∧ count_events is_RequestATUTune (snd (run ins m)) = 0%nat
  ∧ count_events is_ThreadError (snd (run ins m)) = 0%nat
  ∧ count_events is_usleep (snd (run ins m)) = length ins
  ∧ count_events is_close (snd (run ins m))
    = count_events is_MakeSocket (snd (run ins m))
  ∧ SequenceCounter (fst (run ins m)) = SequenceCounter m
  ∧ UDPBuffer (fst (run ins m)) = UDPBuffer m
  ∧ InitError (fst (run ins m)) = InitError m
  ∧ Active (fst (run ins m)) = Active m
  ∧ ThreadError (fst (run ins m)) = ThreadError m.
Proof.
  induction ins as [|i ins IH]; intros m Hpc Hins; [done |].
  cbn [forallb] in Hins. apply andb_prop in Hins as [Hi Hins].
  unfold stopped in Hi. apply negb_true_iff in Hi.
  rewrite run_cons, step_idle_poll by done. cbn [fst snd length].
  rewrite !count_events_app.
  unfold idle_poll. cbn [env_writes Cmdid].
  destruct (Z.land _ _ =? 0); cbn [fst snd].
  - destruct (IH (env_writes i m)) as (-> & -> & -> & -> & -> & -> & -> & -> & -> & -> & ->);
      done.
  - match goal with |- context [run ins ?m1] =>
      destruct (IH m1) as (-> & -> & -> & -> & -> & -> & -> & -> & -> & -> & ->)
    end; done.
Qed.

(** ** Stopping *)

Lemma sockets_used_app t1 t2 : sockets_used (t1 ++ t2) = sockets_used t1 ++ sockets_used t2.
Proof. unfold sockets_used. apply omap_app. Qed.

Lemma sockets_used_wait_loop n PTTBits PTT k : sockets_used (wait_loop n PTTBits PTT k) = [].
Proof.
  revert k. induction n as [|n IH]; intros k; [done |].
  cbn [wait_loop]. destruct (to_u8 (PTT k) =? PTTBits); [| done].
  exact (IH (S k)).
Qed.

(** What a stretch of successful cycles does besides numbering its frames. *)
Lemma running_segment_events ins : ∀ m,
  pc m = AtRunning → InitError m = false →
  forallb cycle_succeeds ins = true →
  pc (fst (run ins m)) = AtRunning
  ∧ InitError (fst (run ins m)) = false
  ∧ Socketid (fst (run ins m)) = Socketid m
  ∧ Active (fst (run ins m)) = Active m
  ∧ ThreadError (fst (run ins m)) = ThreadError m
  ∧ count_events is_sendmsg (snd (run ins m)) = length ins
  ∧ count_events is_close (snd (run ins m)) = 0%nat
  ∧ count_events is_MakeSocket (snd (run ins m)) = 0%nat
  ∧ count_events is_ThreadError (snd (run ins m)) = 0%nat
  ∧ sockets_used (snd (run ins m)) = replicate (length ins) (Socketid m).
Proof.
  induction ins as [|i ins IH]; intros m Hpc Herr Hok; [done |].
  cbn [forallb] in Hok. apply andb_prop in Hok as [Hi Hins].
  apply cycle_succeeds_spec in Hi as [Hact Hsent].
  rewrite run_cons, (step_cycle i m) by done. cbn [fst snd length replicate].
  set (m1 := fst (cycle i (env_writes i m))).
  destruct (IH m1) as (-> & -> & -> & -> & -> & Hn & Hc & Hm & Ht & Hs); try done.
  { subst m1; cbn. by rewrite Hsent. }
  rewrite !count_events_app, sockets_used_app, Hn, Hc, Hm, Ht, Hs.
  cbn [cycle snd]. rewrite !count_events_app, sockets_used_app,
    sockets_used_wait_loop, !count_events_wait_loop by done.
  subst m1. cbn. done.
Qed.

(** X4: a stop is not a shutdown.  After any number of successful cycles,
    reading the run flag clear takes the thread back to the idle poll with
    the socket still open: nothing is closed, the fault indicator is not
    written, [Active] and the descriptor are unchanged, and every cycle sent
    its one datagram on that descriptor. *)
Theorem stop_leaves_socket_open (m : Machine) (ins : list Input) (halt : Input) :
  pc m = AtRunning → InitError m = false →
  forallb cycle_succeeds ins = true → in_SDRActive halt = false →
  pc (fst (run (ins ++ [halt]) m)) = AtIdle
  ∧ InitError (fst (run (ins ++ [halt]) m)) = false
  ∧ Socketid (fst (run (ins ++ [halt]) m)) = Socketid m
  ∧ Active (fst (run (ins ++ [halt]) m)) = Active m
  ∧ ThreadError (fst (run (ins ++ [halt]) m)) = ThreadError m
  ∧ count_events is_close (snd (run (ins ++ [halt]) m)) = 0%nat
  ∧ count_events is_ThreadError (snd (run (ins ++ [halt]) m)) = 0%nat
  ∧ sockets_used (snd (run (ins ++ [halt]) m)) = replicate (length ins) (Socketid m).
Proof.
  intros Hpc Herr Hok Hhalt.
  destruct (running_segment_events ins m)
    as (Hpc1 & Herr1 & Hsock & Hact & Hflt & _ & Hc & _ & Ht & Hs); try done.
  rewrite run_app, run_cons. cbn [fst snd run].
  rewrite step_stop by done. cbn [fst snd set_pc env_writes pc InitError
    Socketid Active ThreadError].
  rewrite app_nil_r, Herr1, Hsock, Hact, Hflt, Hc, Ht, Hs. done.
Qed.

(** ** The life of the thread *)

Lemma lifecycle_inv_step i m tr :
  lifecycle_inv m tr → lifecycle_inv (fst (step i m)) (tr ++ snd (step i m)).
Proof.
  unfold lifecycle_inv, step, worker_step, idle_poll, leave_main_loop, shutdown.
  cbn [env_writes pc InitError Cmdid]. rewrite !count_events_app.
  destruct (pc m) eqn:Hpc.
  - intros (Herr & Hact & Hf & Ht & Hc).
    destruct (in_SDRActive i); cbn [negb].
    + cbn. rewrite Herr. repeat split; try done; lia.
    + destruct (Z.land _ _ =? 0); cbn; rewrite ?Hpc; cbn; repeat split; try done; lia.
  - intros (Hact & Hf & Ht & Hc).
    destruct (InitError m) eqn:Herr; rewrite ?andb_false_r, ?andb_true_r.
    + cbn. repeat split; try done; lia.
    + destruct (in_SDRActive i).
      * cbn [cycle fst snd pc InitError Active].
        rewrite !count_events_app, !count_events_wait_loop by done.
        cbn [app count_events is_failed_sendmsg is_ThreadError is_close is_MakeSocket].
        destruct (in_sendmsg i =? -1); cbn [env_writes InitError];
          rewrite ?Herr; repeat split; try done; lia.
      * cbn. rewrite Herr. repeat split; try done; lia.
  - intros (Hflt & Hact & Hf & Ht & Hc). cbn. rewrite ?Hpc. cbn.
    repeat split; try done; lia.
Qed.

Lemma lifecycle_inv_run ins : ∀ m tr,
  lifecycle_inv m tr → lifecycle_inv (fst (run ins m)) (tr ++ snd (run ins m)).
Proof.
  induction ins as [|i ins IH]; intros m tr Hinv.
  - cbn [run fst snd]. by rewrite app_nil_r.
  - rewrite run_cons. cbn [fst snd]. rewrite app_assoc.
    by apply IH, lifecycle_inv_step.
Qed.

(** X5: over the whole life of the thread, whatever it is fed, at most one
    send fails and the fault indicator is written at most once.  The thread
    has returned exactly when a send has failed and the loop head was reached
    again: then the indicator was written once, it is set, [Active] is clear and
    one more socket was closed than made.  Until then [Active] stays set, the
    indicator is never written and every socket closed was made again. *)
Theorem thread_returns_only_after_failed_send
    (stack : list Z) (socket cmd Global : Z) (Fault : bool) (ins : list Input) :
  let final := fst (run ins (thread_entry stack socket cmd Global Fault)) in
  let trace := snd (run ins (thread_entry stack socket cmd Global Fault)) in
  (count_events is_failed_sendmsg trace <= 1)%nat
  ∧ (count_events is_ThreadError trace <= 1)%nat
  ∧ (pc final = Returned →
     count_events is_failed_sendmsg trace = 1%nat
     ∧ count_events is_ThreadError trace = 1%nat
     ∧ ThreadError final = true ∧ Active final = false
     ∧ count_events is_close trace = S (count_events is_MakeSocket trace))
  ∧ (pc final ≠ Returned →
     count_events is_ThreadError trace = 0%nat
     ∧ Active final = true
     ∧ count_events is_close trace = count_events is_MakeSocket trace).
Proof.
  intros final trace.
  pose proof (lifecycle_inv_run ins (thread_entry stack socket cmd Global Fault) [])
    as Hinv.
  cbn [app] in Hinv. fold final trace in Hinv.
  specialize (Hinv ltac:(by cbv)).
  unfold lifecycle_inv in Hinv.
  destruct (pc final) eqn:Hpc.
  - destruct Hinv as (_ & Hact & Hf & Ht & Hc).
    rewrite Hf, Ht. repeat split; try done; lia.
  - destruct Hinv as (Hact & Hf & Ht & Hc).
    rewrite Hf, Ht. destruct (InitError final); repeat split; try done; lia.
  - destruct Hinv as (Hflt & Hact & Hf & Ht & Hc).
    rewrite Hf, Ht. repeat split; try done; lia.
Qed.

(** X6: every datagram handed to [sendmsg] comes with one tune request, the
    failed one included, and no request is made without a datagram: in any
    trace of the thread, from any state, the two occur equally often. *)
Theorem one_tune_request_per_datagram (ins : list Input) : ∀ m : Machine,
  count_events is_RequestATUTune (snd (run ins m))
  = count_events is_sendmsg (snd (run ins m)).
Proof.
  induction ins as [|i ins IH]; intros m; [done |].
  rewrite run_cons. cbn [snd]. rewrite !count_events_app, IH. f_equal.
  unfold step, worker_step, idle_poll, leave_main_loop, shutdown.
  cbn [env_writes pc InitError Cmdid].
  destruct (pc m); [| | done].
  - destruct (in_SDRActive i); cbn [negb]; [done |].
    by destruct (Z.land _ _ =? 0).
  - destruct (in_SDRActive i && negb (InitError m)).
    + cbn [cycle snd]. by rewrite !count_events_app, !count_events_wait_loop.
    + by destruct (InitError m).
Qed.

(** ** The wait, for every input *)

Lemma count_usleep_wait_loop_le n PTTBits PTT k :
  (count_events is_usleep (wait_loop n PTTBits PTT k) <= n)%nat.
Proof.
  revert k. induction n as [|n IH]; intros k; [done |].
  cbn [wait_loop count_events is_usleep].
  destruct (to_u8 (PTT k) =? PTTBits); cbn [count_events is_usleep].
  - specialize (IH (S k)). lia.
  - lia.
Qed.

Lemma count_usleep_ticks n : count_events is_usleep (ticks n) = n.
Proof. induction n as [|n IH]; [done |]. cbn. by rewrite IH. Qed.

Lemma wait_budget_cases i :
  wait_budget i = if in_MOXAsserted i then 2%nat else 144%nat.
Proof. unfold wait_budget. by destruct (in_MOXAsserted i). Qed.

(** X7: whatever the key inputs do, a step of a running thread sleeps at
    most 2 times while MOX is asserted and at most 144 times otherwise, so
    the next loop head is reached after at most that many ticks. *)
Theorem wait_never_exceeds_budget (m : Machine) (i : Input) :
  pc m = AtRunning →
  (count_events is_usleep (snd (step i m))
   <= if in_MOXAsserted i then 2 else 144)%nat.
Proof.
  intros Hpc. rewrite <- wait_budget_cases.
  unfold step, worker_step, leave_main_loop, shutdown.
  cbn [env_writes pc InitError]. rewrite Hpc.
  destruct (in_SDRActive i && negb (InitError m)).
  - cbn [cycle snd app count_events is_usleep].
    apply count_usleep_wait_loop_le.
  - destruct (InitError m); cbn; lia.
Qed.

(** X8: when the key byte read at every pass of the wait equals the one
    captured for the frame, the cycle is the status read, the send, the tune
    request and then the whole budget of sleeps: 2 while MOX is asserted, 144
    otherwise. *)
Theorem undisturbed_wait_sleeps_budget (m : Machine) (i : Input) :
  pc m = AtRunning → InitError m = false → in_SDRActive i = true →
  keys_unchanged (wait_budget i) (to_u8 (in_PTTKeyInputs i)) (in_wait_PTT i) = true →
  snd (step i m) =
    [EReadStatusRegister;
     Esendmsg (Socketid m) (UDPBuffer (fst (step i m))) (in_sendmsg i);
     ERequestATUTune (ATUTuneRequest (fst (step i m)))]
    ++ ticks (wait_budget i)
  ∧ wait_budget i = (if in_MOXAsserted i then 2 else 144)%nat
  ∧ count_events is_usleep (snd (step i m)) = wait_budget i.
Proof.
  intros Hpc Herr Hact Hsame.
  assert (snd (step i m) =
            [EReadStatusRegister;
             Esendmsg (Socketid m) (UDPBuffer (fst (step i m))) (in_sendmsg i);
             ERequestATUTune (ATUTuneRequest (fst (step i m)))]
            ++ ticks (wait_budget i)) as Htrace.
  { rewrite step_cycle by done.
    cbn [cycle fst snd UDPBuffer ATUTuneRequest Socketid env_writes].
    f_equal. apply wait_loop_undisturbed. by apply keys_unchanged_spec. }
  split; [done |]. split; [apply wait_budget_cases |].
  rewrite Htrace, count_events_app, count_usleep_ticks. reflexivity.
Qed.

(** ** Across a restart *)

Lemma testbit_to_u8 x b : 0 <= b < 8 → Z.testbit (to_u8 x) b = Z.testbit x b.
Proof.
  intros Hb. unfold to_u8. rewrite Z.mod_pow2_bits_low by lia. reflexivity.
Qed.

(** X9: the sticky mask is not touched by a start.  Bits that were in
    [GlobalFIFOOverflows] while the thread was idle, or that are set up to
    the first cycle, are reported in the first frame of the run, and the
    mask is clear after it. *)
Theorem sticky_bits_survive_start (m : Machine) (start first : Input) :
  (60 <= VHIGHPRIOTIYFROMSDRSIZE)%nat →
  pc m = AtIdle → InitError m = false →
  in_SDRActive start = true → in_SDRActive first = true →
  let m1 := fst (step start m) in
  let m2 := fst (step first m1) in
  let sticky :=
    to_u8 (Z.lor (to_u8 (Z.lor (GlobalFIFOOverflows m) (in_FIFO_set start)))
                 (in_FIFO_set first)) in
  sent_frames (snd (run [start; first] m)) = [UDPBuffer m2]
  ∧ load8 (UDPBuffer m2) 30 = Z.lor (channel_flags first) sticky
  ∧ (∀ b, 0 <= b < 8 → Z.testbit (GlobalFIFOOverflows m) b = true →
       Z.testbit (load8 (UDPBuffer m2) 30) b = true)
  ∧ GlobalFIFOOverflows m2 = 0.
Proof.
  intros Hsize Hpc Herr Hstart Hfirst m1 m2 sticky.
  assert (step start m = (start_run VHIGHPRIOTIYFROMSDRSIZE (env_writes start m), []))
    as Hs1 by by apply step_start.
  assert (step first m1 = cycle first (env_writes first m1)) as Hs2.
  { apply step_cycle; [| | done]; subst m1; by rewrite Hs1. }
  assert (load8 (UDPBuffer m2) 30 = Z.lor (channel_flags first) sticky) as Hmask.
  { subst m2. rewrite Hs2. cbn [cycle fst UDPBuffer env_writes GlobalFIFOOverflows].
    rewrite encode_frame_fifo_error_byte, fifo_error_byte_lor, to_u8_idemp.
    - subst m1. rewrite Hs1. reflexivity.
    - subst m1. rewrite Hs1. cbn [fst start_run UDPBuffer].
      by rewrite length_replicate. }
  split; [| split; [done | split]].
  - rewrite run_two, Hs1. cbn [fst snd app]. fold m1. subst m1 m2.
    rewrite Hs1 in *. cbn [fst] in *. by rewrite Hs2, sent_frames_cycle.
  - intros b Hb Hset. rewrite Hmask, Z.lor_spec. subst sticky.
    rewrite testbit_to_u8, Z.lor_spec, testbit_to_u8, Z.lor_spec, Hset by done.
    cbn. apply orb_true_r.
  - subst m2. by rewrite Hs2.
Qed.

Lemma sent_sequence_numbers_app t1 t2 :
  sent_sequence_numbers (t1 ++ t2)
  = sent_sequence_numbers t1 ++ sent_sequence_numbers t2.
Proof. unfold sent_sequence_numbers. by rewrite sent_frames_app, fmap_app. Qed.

(** X10: two episodes in a row.  Start, [n1] successful cycles, a stop, a
    second start and [n2] successful cycles send frames numbered 0 .. n1-1
    and then again 0 .. n2-1 (modulo 2^32). *)
Theorem second_episode_renumbers_from_zero (m : Machine)
    (start1 : Input) (ins1 : list Input) (halt start2 : Input) (ins2 : list Input) :
  (60 <= VHIGHPRIOTIYFROMSDRSIZE)%nat →
  pc m = AtIdle → InitError m = false →
  in_SDRActive start1 = true → forallb cycle_succeeds ins1 = true →
  in_SDRActive halt = false →
  in_SDRActive start2 = true → forallb cycle_succeeds ins2 = true →
  sent_sequence_numbers
    (snd (run (start1 :: ins1 ++ halt :: start2 :: ins2) m))
  = ((λ k, to_u32 (Z.of_nat k)) <$> seq 0 (length ins1))
    ++ ((λ k, to_u32 (Z.of_nat k)) <$> seq 0 (length ins2)).
Proof.
  intros Hsize Hpc Herr Hs1 Hok1 Hhalt Hs2 Hok2.
  rewrite run_cons, step_start by done. cbn [fst snd app].
  set (m1 := start_run VHIGHPRIOTIYFROMSDRSIZE (env_writes start1 m)).
  assert (length (UDPBuffer m1) = VHIGHPRIOTIYFROMSDRSIZE) as Hlen1
    by apply length_replicate.
  destruct (running_segment ins1 m1) as (Hnum1 & Hpc1 & Herr1 & _); try done.
  { lia. }
  rewrite run_app. cbn [snd]. rewrite sent_sequence_numbers_app, Hnum1.
  f_equal. set (m2 := fst (run ins1 m1)) in *.
  rewrite run_cons, step_stop by done. cbn [fst snd app].
  rewrite run_cons, step_start by done. cbn [fst snd app].
  set (m3 := start_run VHIGHPRIOTIYFROMSDRSIZE _).
  destruct (running_segment ins2 m3) as (Hnum2 & _);
    [ subst m3; cbn [start_run UDPBuffer]; rewrite length_replicate; lia
    | done .. | exact Hnum2 ].
Qed.

(** ** The socket *)

(** X11: a destination change made while idle is what the next run uses.
    After an idle poll that finds the change-port bit set, a start and any
    number of successful cycles, every datagram went out on the descriptor
    installed by [MakeSocket], the old one was closed once, and that
    descriptor is the one the thread holds. *)
Theorem new_socket_carries_next_run (m : Machine) (poll start : Input)
    (ins : list Input) :
  pc m = AtIdle → InitError m = false →
  in_SDRActive poll = false →
  Z.land (Z.lor (Cmdid m) (in_Cmdid_set poll)) VBITCHANGEPORT ≠ 0 →
  in_SDRActive start = true → forallb cycle_succeeds ins = true →
  sockets_used (snd (run (poll :: start :: ins) m))
  = replicate (length ins) (in_MakeSocket poll)
  ∧ count_events is_close (snd (run (poll :: start :: ins) m)) = 1%nat
  ∧ count_events is_MakeSocket (snd (run (poll :: start :: ins) m)) = 1%nat
  ∧ Socketid (fst (run (poll :: start :: ins) m)) = in_MakeSocket poll.
Proof.
  intros Hpc Herr Hpoll Hbit Hstart Hok.
  rewrite run_cons, step_idle_poll by done.
  unfold idle_poll. cbn [env_writes Cmdid].
  apply Z.eqb_neq in Hbit. rewrite Hbit. cbn [fst snd].
  set (m1 := Build_Machine _ _ _ _ _ _ _ _ _ _).
  rewrite run_cons, (step_start start m1) by (subst m1; done).
  cbn [fst snd app].
  set (m2 := start_run VHIGHPRIOTIYFROMSDRSIZE (env_writes start m1)).
  destruct (running_segment_events ins m2)
    as (_ & _ & Hsock & _ & _ & _ & Hc & Hm & _ & Hs); try done.
  cbn [sockets_used omap list_omap socket_of count_events is_close is_MakeSocket].
  fold (sockets_used (snd (run ins m2))).
  rewrite Hsock, Hc, Hm, Hs. subst m2 m1. cbn. done.
Qed.

(** X12: one command, one re-open.  The idle poll that serves the
    change-port bit clears that bit and no other bit of [Cmdid]; a following
    poll, with the bit not set again, only sleeps. *)
Theorem change_port_is_served_once (m : Machine) (poll1 poll2 : Input) :
  pc m = AtIdle → in_SDRActive poll1 = false → in_SDRActive poll2 = false →
  Z.land (Z.lor (Cmdid m) (in_Cmdid_set poll1)) VBITCHANGEPORT ≠ 0 →
  Z.land (in_Cmdid_set poll2) VBITCHANGEPORT = 0 →
  snd (run [poll1; poll2] m)
  = [Eclose (Socketid m); EMakeSocket; Eusleep 100; Eusleep 100]
  ∧ Socketid (fst (run [poll1; poll2] m)) = in_MakeSocket poll1
  ∧ (∀ b, 0 <= b → Z.testbit VBITCHANGEPORT b = false →
       Z.testbit (Cmdid (fst (step poll1 m))) b
       = Z.testbit (Z.lor (Cmdid m) (in_Cmdid_set poll1)) b).
Proof.
  intros Hpc Hp1 Hp2 Hbit Hnew.
  assert (step poll1 m = idle_poll VBITCHANGEPORT poll1 (env_writes poll1 m)) as Hs1
    by by apply step_idle_poll.
  unfold idle_poll in Hs1. cbn [env_writes Cmdid] in Hs1.
  apply Z.eqb_neq in Hbit. rewrite Hbit in Hs1.
  assert (step poll2 (fst (step poll1 m))
          = (env_writes poll2 (fst (step poll1 m)), [Eusleep 100])) as Hs2.
  { rewrite step_idle_poll by (rewrite ?Hs1; done).
    unfold idle_poll. rewrite Hs1. cbn [fst env_writes Cmdid].
    rewrite Z.land_lor_distr_l, Hnew, Z.lor_0_r, <- Z.land_assoc,
      (Z.land_comm (Z.lnot _)), Z.land_lnot_diag, Z.land_0_r.
    reflexivity. }
  split; [| split].
  - rewrite run_two, Hs2, Hs1. reflexivity.
  - rewrite !run_cons. cbn [run fst]. rewrite Hs2, Hs1. reflexivity.
  - intros b Hb Hclear. rewrite Hs1. cbn [fst Cmdid].
    rewrite Z.land_spec, Z.lnot_spec, Hclear by done. apply andb_true_r.
Qed.

(** ** The counter in mid-episode *)

(** X13: the counter wraps silently.  Successful cycles of a running thread
    whose counter holds [c] send frames numbered [c], [c+1], ... modulo 2^32,
    whatever [c] is, and the thread keeps running: after 4294967295 comes 0. *)
Theorem counter_wraps_silently (m : Machine) (ins : list Input) :
  (60 <= length (UDPBuffer m))%nat →
  pc m = AtRunning → InitError m = false →
  forallb cycle_succeeds ins = true →
  sent_sequence_numbers (snd (run ins m))
  = (λ k, to_u32 (SequenceCounter m + Z.of_nat k)) <$> seq 0 (length ins)
  ∧ to_u32 (4294967295 + 1) = 0
  ∧ pc (fst (run ins m)) = AtRunning
  ∧ InitError (fst (run ins m)) = false.
Proof.
  intros Hlen Hpc Herr Hok.
  destruct (running_segment ins m) as (Hnum & Hpc' & Herr' & _); done.
Qed.

(** ** What reaches the wire *)

Lemma same_wire_state_step i m m' :
  same_wire_state m m' →
  same_wire_state (fst (step i m)) (fst (step i m'))
  ∧ sent_frames (snd (step i m)) = sent_frames (snd (step i m')).
Proof.
  intros (Hpc & Herr & HG & Hrun).
  unfold step, worker_step, idle_poll, leave_main_loop, shutdown, same_wire_state.
  cbn [env_writes pc InitError Cmdid]. rewrite <- Hpc, <- Herr.
  destruct (pc m) eqn:Hloc.
  - destruct (in_SDRActive i); cbn [negb].
    + cbn. by rewrite HG.
    + destruct (Z.land (Z.lor (Cmdid m) _) _ =? 0),
        (Z.land (Z.lor (Cmdid m') _) _ =? 0); cbn;
        rewrite <- ?Hpc, ?Hloc, HG, Herr; done.
  - destruct Hrun as [Hcount Hbuf]; [done |].
    destruct (in_SDRActive i && negb (InitError m)).
    + cbn [cycle fst snd]. rewrite !sent_frames_app, !sent_frames_wait_loop.
      cbn. by rewrite Hcount, Hbuf, HG, <- Herr.
    + destruct (InitError m) eqn:E; cbn; rewrite ?HG, <- ?Herr; done.
  - cbn. rewrite <- ?Hpc, ?Hloc, HG, Herr. done.
Qed.

Lemma same_wire_state_run ins : ∀ m m',
  same_wire_state m m' →
  sent_frames (snd (run ins m)) = sent_frames (snd (run ins m')).
Proof.
  induction ins as [|i ins IH]; intros m m' Hsame; [done |].
  rewrite !run_cons. cbn [snd]. rewrite !sent_frames_app.
  destruct (same_wire_state_step i m m' Hsame) as [Hnext ->].
  f_equal. by apply IH.
Qed.

(** X14: what reaches the wire depends on the inputs and the sticky mask
    only.  Two threads entered with different stack contents, sockets,
    command bytes and fault flags, and fed the same inputs, send the same
    datagrams, byte for byte: the uninitialised buffer never shows, and
    neither the socket nor a pending command changes a frame. *)
Theorem frames_depend_on_inputs_only
    (stack stack' : list Z) (socket socket' cmd cmd' Global : Z)
    (Fault Fault' : bool) (ins : list Input) :
  sent_frames (snd (run ins (thread_entry stack socket cmd Global Fault)))
  = sent_frames (snd (run ins (thread_entry stack' socket' cmd' Global Fault'))).
Proof. apply same_wire_state_run. by cbv. Qed.

End WorkerProperties.

(** * Worked instances, with a 60-byte frame and change-port bit 1 *)

Lemma sequence_numbers_witness :
  (60 <= 60)%nat ∧ pc (idle_machine 41) = AtIdle
  ∧ InitError (idle_machine 41) = false ∧ in_SDRActive go = true
  ∧ forallb cycle_succeeds [go; go; go] = true
  ∧ SequenceCounter (fst (step 60 1 go (idle_machine 41))) = 0
  ∧ sent_sequence_numbers (snd (run 60 1 [go; go; go; go] (idle_machine 41)))
    = [0; 1; 2].
Proof.
  do 5 (split; [first [lia | reflexivity] |]).
  destruct (sequence_numbers_count_up 60 1 (idle_machine 41) go [go; go; go])
    as (Hreset & Hnumbers & _); [lia | reflexivity ..|].
  split; [exact Hreset | exact Hnumbers].
Defined.

Lemma key_change_witness :
  (60 <= length (UDPBuffer (running_machine 7)))%nat
  ∧ cycle_succeeds late_key = true
  ∧ (3 < Z.to_nat (SleepCount_init (in_MOXAsserted late_key)))%nat
  ∧ keys_unchanged 3 (to_u8 (in_PTTKeyInputs late_key)) (in_wait_PTT late_key) = true
  ∧ (to_u8 (in_wait_PTT late_key 3) =? to_u8 (in_PTTKeyInputs late_key)) = false
  ∧ load8 (UDPBuffer (fst (step 60 1 late_key (running_machine 7)))) 4 = 0.
Proof.
  assert (60 <= length (UDPBuffer (running_machine 7)))%nat as Hlen
    by (vm_compute; lia).
  assert (3 < Z.to_nat (SleepCount_init (in_MOXAsserted late_key)))%nat as Hj
    by (vm_compute; lia).
  split; [exact Hlen |]. split; [reflexivity |]. split; [exact Hj |].
  split; [reflexivity |]. split; [reflexivity |].
  exact (proj1 (key_change_aborts_wait 60 1 (running_machine 7) late_key go 3
                  Hlen eq_refl eq_refl eq_refl eq_refl Hj eq_refl eq_refl)).
Defined.

Lemma fifo_error_byte_witness :
  (60 <= length (UDPBuffer (running_machine 0)))%nat
  ∧ cycle_succeeds flagged = true ∧ in_SDRActive go = true ∧ in_FIFO_set go = 0
  ∧ load8 (UDPBuffer (fst (step 60 1 flagged (running_machine 0)))) 30 = 41
  ∧ GlobalFIFOOverflows (fst (step 60 1 flagged (running_machine 0))) = 0
  ∧ load8 (UDPBuffer (fst (step 60 1 go (fst (step 60 1 flagged (running_machine 0)))))) 30 = 0.
Proof.
  assert (60 <= length (UDPBuffer (running_machine 0)))%nat as Hlen
    by (vm_compute; lia).
  split; [exact Hlen |]. do 3 (split; [reflexivity |]).
  destruct (fifo_error_byte_policy 60 1 (running_machine 0) flagged go
              Hlen eq_refl eq_refl eq_refl eq_refl eq_refl)
    as (_ & _ & _ & _ & _ & _ & Hmask & Hclear & Hnext).
  split; [exact Hmask |]. split; [exact Hclear | exact Hnext].
Defined.

Lemma send_failure_witness :
  pc (fst (run 60 1 [go] spawned)) = AtRunning
  ∧ InitError (fst (run 60 1 [go] spawned)) = false
  ∧ in_SDRActive failing = true ∧ in_sendmsg failing = -1
  ∧ count_events is_ThreadError (snd (run 60 1 ([go] ++ failing :: go :: [go; go]) spawned)) = 1%nat
  ∧ pc (fst (run 60 1 ([go] ++ failing :: go :: [go; go]) spawned)) = Returned
  ∧ ThreadError (fst (run 60 1 ([go] ++ failing :: go :: [go; go]) spawned)) = true
  ∧ Active (fst (run 60 1 ([go] ++ failing :: go :: [go; go]) spawned)) = false.
Proof.
  do 4 (split; [reflexivity |]).
  destruct (send_failure_is_fatal 60 1 (replicate 60 170) 5 0 0 false
              [go] failing go [go; go] eq_refl eq_refl eq_refl eq_refl)
    as (_ & _ & _ & _ & Hfault & _ & Hpc & Hflag & Hactive).
  split; [exact Hfault |]. split; [exact Hpc |]. split; [exact Hflag | exact Hactive].
Defined.

Lemma change_port_witness :
  pc (with_Cmdid 1 (idle_machine 0)) = AtIdle ∧ in_SDRActive stop = false
  ∧ Z.land (Z.lor (Cmdid (with_Cmdid 1 (idle_machine 0))) (in_Cmdid_set stop)) 1 ≠ 0
  ∧ pc (running_machine 0) = AtRunning
  ∧ snd (step 60 1 stop (with_Cmdid 1 (idle_machine 0)))
    = [Eclose 5; EMakeSocket; Eusleep 100]
  ∧ Socketid (fst (step 60 1 stop (with_Cmdid 1 (idle_machine 0)))) = 7
  ∧ snd (step 60 1 go (with_Cmdid 1 (running_machine 0)))
    = snd (step 60 1 go (running_machine 0)).
Proof.
  assert (Z.land (Z.lor (Cmdid (with_Cmdid 1 (idle_machine 0))) (in_Cmdid_set stop)) 1 ≠ 0)
    as Hbit by (vm_compute; discriminate).
  do 2 (split; [reflexivity |]). split; [exact Hbit |]. split; [reflexivity |].
  destruct (change_port_only_while_idle 60 1 (with_Cmdid 1 (idle_machine 0)) stop
              (running_machine 0) go 1 eq_refl eq_refl Hbit eq_refl)
    as (Hev & Hsock & _ & _ & Hsame & _).
  split; [exact Hev |]. split; [exact Hsock | exact Hsame].
Defined.

Lemma atu_request_witness :
  (60 <= length (UDPBuffer (running_machine 0)))%nat
  ∧ pc (running_machine 0) = AtRunning ∧ InitError (running_machine 0) = false
  ∧ in_SDRActive no_tune = true
  ∧ load8 (UDPBuffer (fst (step 60 1 no_tune (running_machine 0)))) 59 = 4
  ∧ count_events is_RequestATUTune (snd (step 60 1 no_tune (running_machine 0))) = 1%nat
  ∧ ATUTuneRequest (fst (step 60 1 no_tune (running_machine 0))) = false.
Proof.
  assert (60 <= length (UDPBuffer (running_machine 0)))%nat as Hlen
    by (vm_compute; lia).
  split; [exact Hlen |]. do 3 (split; [reflexivity |]).
  destruct (atu_request_is_inverted_bit_2 60 1 (running_machine 0) no_tune
              Hlen eq_refl eq_refl eq_refl) as (Hbyte & _ & Hone & Hreq).
  split; [exact Hbyte |]. split; [exact Hone |].
  rewrite Hreq, Hbyte. reflexivity.
Defined.

Lemma failed_send_witness :
  (60 <= length (UDPBuffer (running_machine 9)))%nat
  ∧ pc (running_machine 9) = AtRunning ∧ InitError (running_machine 9) = false
  ∧ in_SDRActive failing = true ∧ in_sendmsg failing = -1
  ∧ SequenceCounter (fst (step 60 1 failing (running_machine 9))) = 10
  ∧ GlobalFIFOOverflows (fst (step 60 1 failing (running_machine 9))) = 0
  ∧ wait_loop 144 0 (λ _, 0) 0 = ticks 144.
Proof.
  assert (60 <= length (UDPBuffer (running_machine 9)))%nat as Hlen
    by (vm_compute; lia).
  split; [exact Hlen |]. do 4 (split; [reflexivity |]).
  destruct (failed_send_cycle_completes 60 1 (running_machine 9) failing go
              Hlen eq_refl eq_refl eq_refl eq_refl)
    as (Hcount & _ & _ & Hclear & _ & Hfull).
  split; [exact Hcount |]. split; [exact Hclear |].
  exact (Hfull eq_refl).
Defined.

Lemma frame_layout_witness :
  Forall (layout_ok 60)
    (sent_frames (snd (run 60 1 [go; go; late_key; stop; go; flagged] spawned))).
Proof.
  exact (proj1 (frame_layout_is_fixed 60 1 (replicate 60 170) 5 0 0 false
                  [go; go; late_key; stop; go; flagged])).
Defined.

(** * Worked instances of the further properties *)

Lemma frame_fields_witness :
  (60 <= length blank_frame)%nat
  ∧ load8 (encode_frame blank_frame 0 telemetry 0) 5 = 3
  ∧ load16be (encode_frame blank_frame 0 telemetry 0) 6 = 1004
  ∧ load16be (encode_frame blank_frame 0 telemetry 0) 49 = 1005
  ∧ load16be (encode_frame blank_frame 0 telemetry 0) 57 = 1002
  ∧ load16be (encode_frame blank_frame 0 telemetry 0) 55 = 1003
  ∧ load16be (encode_frame blank_frame 0 telemetry 0) 31 = 300.
Proof.
  assert (60 <= length blank_frame)%nat as Hlen by (vm_compute; lia).
  split; [exact Hlen |].
  destruct (frame_fields_read_back blank_frame 0 telemetry 0 Hlen)
    as (_ & _ & _ & Hadc & Hexc & _ & _ & Hsup & Hu1 & Hu2 & _ & _ & Hddc).
  split; [exact Hadc |]. split; [exact Hexc |]. split; [exact Hsup |].
  split; [exact Hu1 |]. split; [exact Hu2 | exact Hddc].
Defined.

Lemma no_stale_bytes_witness :
  (60 <= 60)%nat ∧ layout_ok 60 blank_frame
  ∧ layout_ok 60 (encode_frame blank_frame 7 flagged 9)
  ∧ encode_frame blank_frame 3 telemetry 0
    = encode_frame (encode_frame blank_frame 7 flagged 9) 3 telemetry 0.
Proof.
  assert (layout_ok 60 blank_frame) as H1.
  { split; [reflexivity | intros j _; apply load8_replicate_0]. }
  assert (layout_ok 60 (encode_frame blank_frame 7 flagged 9)) as H2
    by (apply layout_ok_encode_frame, H1).
  split; [lia |]. split; [exact H1 |]. split; [exact H2 |].
  apply (frame_has_no_stale_bytes 60); [lia | exact H1 | exact H2].
Defined.

Lemma idle_thread_witness :
  pc spawned = AtIdle ∧ forallb stopped [stop; stop; stop] = true
  ∧ pc (fst (run 60 1 [stop; stop; stop] spawned)) = AtIdle
  ∧ count_events is_sendmsg (snd (run 60 1 [stop; stop; stop] spawned)) = 0%nat
  ∧ count_events is_usleep (snd (run 60 1 [stop; stop; stop] spawned)) = 3%nat.
Proof.
  do 2 (split; [reflexivity |]).
  destruct (idle_thread_is_silent 60 1 [stop; stop; stop] spawned eq_refl eq_refl)
    as (Hpc & Hsend & _ & _ & Hsleep & _).
  split; [exact Hpc |]. split; [exact Hsend | exact Hsleep].
Defined.

Lemma stop_witness :
  pc (running_machine 0) = AtRunning ∧ InitError (running_machine 0) = false
  ∧ forallb cycle_succeeds [go; go] = true ∧ in_SDRActive stop = false
  ∧ pc (fst (run 60 1 ([go; go] ++ [stop]) (running_machine 0))) = AtIdle
  ∧ Socketid (fst (run 60 1 ([go; go] ++ [stop]) (running_machine 0))) = 5
  ∧ count_events is_close (snd (run 60 1 ([go; go] ++ [stop]) (running_machine 0))) = 0%nat
  ∧ sockets_used (snd (run 60 1 ([go; go] ++ [stop]) (running_machine 0))) = [5; 5].
Proof.
  do 4 (split; [reflexivity |]).
  destruct (stop_leaves_socket_open 60 1 (running_machine 0) [go; go] stop
              eq_refl eq_refl eq_refl eq_refl)
    as (Hpc & _ & Hsock & _ & _ & Hclose & _ & Hused).
  split; [exact Hpc |]. split; [exact Hsock |]. split; [exact Hclose | exact Hused].
Defined.

Lemma wait_bound_witness :
  pc (running_machine 0) = AtRunning
  ∧ (count_events is_usleep (snd (step 60 1 late_key (running_machine 0))) <= 144)%nat.
Proof.
  split; [reflexivity |].
  exact (wait_never_exceeds_budget 60 1 (running_machine 0) late_key eq_refl).
Defined.

Lemma undisturbed_wait_witness :
  pc (running_machine 0) = AtRunning ∧ InitError (running_machine 0) = false
  ∧ in_SDRActive no_tune = true
  ∧ keys_unchanged (wait_budget no_tune) (to_u8 (in_PTTKeyInputs no_tune))
      (in_wait_PTT no_tune) = true
  ∧ count_events is_usleep (snd (step 60 1 no_tune (running_machine 0))) = 2%nat.
Proof.
  do 4 (split; [reflexivity |]).
  destruct (undisturbed_wait_sleeps_budget 60 1 (running_machine 0) no_tune
              eq_refl eq_refl eq_refl eq_refl) as (_ & _ & Hsleeps).
  exact Hsleeps.
Defined.

Lemma sticky_start_witness :
  (60 <= 60)%nat ∧ pc idle_with_sticky = AtIdle
  ∧ InitError idle_with_sticky = false ∧ in_SDRActive go = true
  ∧ load8 (UDPBuffer (fst (step 60 1 go (fst (step 60 1 go idle_with_sticky))))) 30 = 32
  ∧ GlobalFIFOOverflows (fst (step 60 1 go (fst (step 60 1 go idle_with_sticky)))) = 0.
Proof.
  do 4 (split; [first [lia | reflexivity] |]).
  destruct (sticky_bits_survive_start 60 1 idle_with_sticky go go
              ltac:(lia) eq_refl eq_refl eq_refl eq_refl)
    as (_ & Hmask & _ & Hclear).
  split; [exact Hmask | exact Hclear].
Defined.

Lemma second_episode_witness :
  (60 <= 60)%nat ∧ pc (idle_machine 41) = AtIdle
  ∧ InitError (idle_machine 41) = false
  ∧ forallb cycle_succeeds [go; go] = true ∧ in_SDRActive stop = false
  ∧ forallb cycle_succeeds [go; go; go] = true
  ∧ sent_sequence_numbers
      (snd (run 60 1 (go :: [go; go] ++ stop :: go :: [go; go; go]) (idle_machine 41)))
    = [0; 1] ++ [0; 1; 2].
Proof.
  do 6 (split; [first [lia | reflexivity] |]).
  exact (second_episode_renumbers_from_zero 60 1 (idle_machine 41)
           go [go; go] stop go [go; go; go]
           ltac:(lia) eq_refl eq_refl eq_refl eq_refl eq_refl eq_refl eq_refl).
Defined.

Lemma new_socket_witness :
  pc (with_Cmdid 1 (idle_machine 0)) = AtIdle
  ∧ InitError (with_Cmdid 1 (idle_machine 0)) = false
  ∧ in_SDRActive stop = false
  ∧ Z.land (Z.lor (Cmdid (with_Cmdid 1 (idle_machine 0))) (in_Cmdid_set stop)) 1 ≠ 0
  ∧ forallb cycle_succeeds [go; go] = true
  ∧ sockets_used (snd (run 60 1 (stop :: go :: [go; go]) (with_Cmdid 1 (idle_machine 0))))
    = [7; 7]
  ∧ Socketid (fst (run 60 1 (stop :: go :: [go; go]) (with_Cmdid 1 (idle_machine 0)))) = 7.
Proof.
  assert (Z.land (Z.lor (Cmdid (with_Cmdid 1 (idle_machine 0))) (in_Cmdid_set stop)) 1 ≠ 0)
    as Hbit by (vm_compute; discriminate).
  do 3 (split; [reflexivity |]). split; [exact Hbit |]. split; [reflexivity |].
  destruct (new_socket_carries_next_run 60 1 (with_Cmdid 1 (idle_machine 0))
              stop go [go; go] eq_refl eq_refl eq_refl Hbit eq_refl eq_refl)
    as (Hused & _ & _ & Hsock).
  split; [exact Hused | exact Hsock].
Defined.

Lemma served_once_witness :
  pc (with_Cmdid 3 (idle_machine 0)) = AtIdle ∧ in_SDRActive stop = false
  ∧ Z.land (Z.lor (Cmdid (with_Cmdid 3 (idle_machine 0))) (in_Cmdid_set stop)) 1 ≠ 0
  ∧ Z.land (in_Cmdid_set stop) 1 = 0
  ∧ snd (run 60 1 [stop; stop] (with_Cmdid 3 (idle_machine 0)))
    = [Eclose 5; EMakeSocket; Eusleep 100; Eusleep 100]
  ∧ Z.testbit (Cmdid (fst (step 60 1 stop (with_Cmdid 3 (idle_machine 0))))) 1 = true.
Proof.
  assert (Z.land (Z.lor (Cmdid (with_Cmdid 3 (idle_machine 0))) (in_Cmdid_set stop)) 1 ≠ 0)
    as Hbit by (vm_compute; discriminate).
  do 2 (split; [reflexivity |]). split; [exact Hbit |]. split; [reflexivity |].
  destruct (change_port_is_served_once 60 1 (with_Cmdid 3 (idle_machine 0)) stop stop
              eq_refl eq_refl eq_refl Hbit eq_refl) as (Htrace & _ & Hbits).
  split; [exact Htrace |].
  rewrite (Hbits 1); [reflexivity | lia | reflexivity].
Defined.

Lemma counter_wrap_witness :
  (60 <= length (UDPBuffer (running_machine 4294967295)))%nat
  ∧ pc (running_machine 4294967295) = AtRunning
  ∧ InitError (running_machine 4294967295) = false
  ∧ forallb cycle_succeeds [go; go] = true
  ∧ sent_sequence_numbers (snd (run 60 1 [go; go] (running_machine 4294967295)))
    = [4294967295; 0].
Proof.
  assert (60 <= length (UDPBuffer (running_machine 4294967295)))%nat as Hlen
    by (vm_compute; lia).
  split; [exact Hlen |]. do 3 (split; [reflexivity |]).
  exact (proj1 (counter_wraps_silently 60 1 (running_machine 4294967295) [go; go]
                  Hlen eq_refl eq_refl eq_refl)).
Defined.
